(** * A verification model of the chat application's routing and statistics code

    The development embeds, function by function, the JavaScript sources
    - [services/jsonTools.js]   (channel-JSON tools),
    - [services/gemini.js]      (the keyword table and the chat stream),
    - [components/Chat.js]      (attachment handling and the send handler),
    - [components/YoutubeDownload.js] (the download form),
    and proves the properties stated about them.

    Conventions.  A JavaScript string is a [string]: a sequence of 8-bit
    code units (the Latin-1 part of UTF-16).  [undefined] is [None] of an
    option type.  A thrown exception is the [Throw] case of [result]. *)

From Stdlib Require Import Bool Arith List ZArith Lia Ascii String.
From Stdlib Require Import Floats Reals Lra Sorting.Sorted Permutation.
Import ListNotations.

Set Implicit Arguments.
Set Warnings "-register-all,-inexact-float".


(** ** Characters and strings as the code uses them *)

Definition chars (s : string) : list ascii := list_ascii_of_string s.
Definition str (l : list ascii) : string := string_of_list_ascii l.

Definition code (c : ascii) : nat := nat_of_ascii c.

Definition between (lo hi : nat) (c : ascii) : bool :=
  (lo <=? code c) && (code c <=? hi).

Definition is_digit (c : ascii) : bool := between 48 57 c.
Definition is_upper (c : ascii) : bool := between 65 90 c.
Definition is_lower (c : ascii) : bool := between 97 122 c.
Definition is_alpha (c : ascii) : bool := is_upper c || is_lower c.

(** [\w]: the word characters that decide [\b]. *)
Definition is_word (c : ascii) : bool :=
  is_alpha c || is_digit c || (code c =? 95).

(** White space and line terminators below U+0100: what [\s] matches and
    what [String.prototype.trim] strips. *)
Definition is_space (c : ascii) : bool :=
  between 9 13 c || (code c =? 32) || (code c =? 160).

Definition is_line_terminator (c : ascii) : bool :=
  (code c =? 10) || (code c =? 13).

Definition upcase (c : ascii) : ascii :=
  if is_lower c then ascii_of_nat (code c - 32) else c.

(** Lower case of a code unit below U+0100: the ASCII capitals and the
    Latin-1 capitals other than the multiplication sign. *)
Definition downcase (c : ascii) : ascii :=
  if is_upper c || (between 192 222 c && negb (code c =? 215))
  then ascii_of_nat (code c + 32) else c.

Definition toLowerCase (s : string) : string := str (map downcase (chars s)).

Fixpoint drop_while (p : ascii -> bool) (l : list ascii) : list ascii :=
  match l with
  | [] => []
  | c :: r => if p c then drop_while p r else l
  end.

Definition trim_chars (l : list ascii) : list ascii :=
  rev (drop_while is_space (rev (drop_while is_space l))).

Definition trim (s : string) : string := str (trim_chars (chars s)).

Definition is_empty (s : string) : bool :=
  match s with EmptyString => true | _ => false end.

(** [s.slice(0, n)] for [0 <= n]. *)
Definition slice0 (n : nat) (s : string) : string := str (firstn n (chars s)).

(** The double quote character, and a text between double quotes. *)
Definition dquote : string := String (ascii_of_nat 34) EmptyString.
Definition quoted (s : string) : string := dquote ++ s ++ dquote.

(** [l.join(sep)] *)
Fixpoint join (sep : string) (l : list string) : string :=
  match l with
  | [] => EmptyString
  | [x] => x
  | x :: r => x ++ sep ++ join sep r
  end.

(** The decimal digits of a natural number, as [String(n)] prints a
    length or a count. *)
Fixpoint N_digits (fuel : nat) (n : N) (acc : list ascii) : list ascii :=
  match fuel with
  | O => acc
  | S fuel' =>
      let acc' := ascii_of_N (48 + N.modulo n 10) :: acc in
      if N.eqb (N.div n 10) 0 then acc' else N_digits fuel' (N.div n 10) acc'
  end.

(** A number has no more digits than bits. *)
Definition N_to_string (n : N) : string :=
  str (N_digits (S (N.to_nat (N.log2 n))) n []).

Definition nat_to_string (n : nat) : string := N_to_string (N.of_nat n).

(** ** Regular expressions

    The patterns of the sources, matched the way the language does it: a
    backtracking matcher that tries alternatives left to right and
    repetitions greedily, searched from the leftmost start position. *)

Module Regex.

Inductive re : Type :=
| Eps
| Chr (c : ascii)
| Dot
| Cls (p : ascii -> bool)
| Seq (a b : re)
| Alt (a b : re)
| Star (a : re)
| Grp (n : nat) (a : re)
| WordB
| Bol
| Eol.

Definition Plus (a : re) : re := Seq a (Star a).
Definition Opt (a : re) : re := Alt a Eps.

Fixpoint lit_chars (l : list ascii) : re :=
  match l with
  | [] => Eps
  | [c] => Chr c
  | c :: r => Seq (Chr c) (lit_chars r)
  end.

Definition lit (s : string) : re := lit_chars (chars s).

Fixpoint seqs (l : list re) : re :=
  match l with
  | [] => Eps
  | [a] => a
  | a :: r => Seq a (seqs r)
  end.

Fixpoint alts (l : list re) : re :=
  match l with
  | [] => Cls (fun _ => false)
  | [a] => a
  | a :: r => Alt a (alts r)
  end.

Definition words (l : list string) : re := alts (map lit l).

(** The matcher's position: the character before it, the input that is
    left, and the groups captured so far. *)
Record pos : Type := mkPos {
  before : option ascii;
  rest : list ascii;
  caps : list (nat * list ascii)
}.

Definition eat (c : ascii) (r : list ascii) (p : pos) : pos :=
  mkPos (Some c) r (caps p).

Definition same_char (icase : bool) (c x : ascii) : bool :=
  if icase then Ascii.eqb (upcase c) (upcase x) else Ascii.eqb c x.

Definition word_before (p : pos) : bool :=
  match before p with Some c => is_word c | None => false end.

Definition word_after (p : pos) : bool :=
  match rest p with c :: _ => is_word c | [] => false end.

Definition consumed (p q : pos) : list ascii :=
  firstn (List.length (rest p) - List.length (rest q)) (rest p).

Fixpoint run (icase : bool) (r : re) (p : pos) (k : pos -> option pos)
  {struct r} : option pos :=
  match r with
  | Eps => k p
  | Chr c =>
      match rest p with
      | x :: xs => if same_char icase c x then k (eat x xs p) else None
      | [] => None
      end
  | Dot =>
      match rest p with
      | x :: xs => if is_line_terminator x then None else k (eat x xs p)
      | [] => None
      end
  | Cls f =>
      match rest p with
      | x :: xs => if f x then k (eat x xs p) else None
      | [] => None
      end
  | Seq a b => run icase a p (fun q => run icase b q k)
  | Alt a b =>
      match run icase a p k with
      | Some m => Some m
      | None => run icase b p k
      end
  | Star a =>
      (fix loop (fuel : nat) (p : pos) {struct fuel} : option pos :=
         match fuel with
         | O => k p
         | S fuel' =>
             match
               run icase a p
                 (fun q =>
                    if List.length (rest q) <? List.length (rest p)
                    then loop fuel' q else None)
             with
             | Some m => Some m
             | None => k p
             end
         end) (S (List.length (rest p))) p
  | Grp n a =>
      run icase a p
        (fun q => k (mkPos (before q) (rest q) ((n, consumed p q) :: caps q)))
  | WordB => if xorb (word_before p) (word_after p) then k p else None
  | Bol => match before p with None => k p | Some _ => None end
  | Eol => match rest p with [] => k p | _ :: _ => None end
  end.

(** One match: the text before it, the matched text, the text after it and
    the captured groups. *)
Record found : Type := mkFound {
  pre : list ascii;
  whole : list ascii;
  post : list ascii;
  groups : list (nat * list ascii)
}.

Fixpoint search (icase : bool) (r : re) (seen : list ascii)
  (prev : option ascii) (l : list ascii) : option found :=
  let start := mkPos prev l [] in
  match run icase r start Some with
  | Some q => Some (mkFound (rev seen) (consumed start q) (rest q) (caps q))
  | None =>
      match l with
      | [] => None
      | c :: l' => search icase r (c :: seen) (Some c) l'
      end
  end.

Definition exec (icase : bool) (r : re) (s : string) : option found :=
  search icase r [] None (chars s).

(** [re.test(s)] *)
Definition test (icase : bool) (r : re) (s : string) : bool :=
  match exec icase r s with Some _ => true | None => false end.

(** [m[n]] of a match [m]: group 0 is the whole match, a group that did
    not take part is [undefined]. *)
Fixpoint lookup_group (n : nat) (g : list (nat * list ascii))
  : option (list ascii) :=
  match g with
  | [] => None
  | (i, v) :: g' => if i =? n then Some v else lookup_group n g'
  end.

Definition group (n : nat) (m : found) : option string :=
  match n with
  | O => Some (str (whole m))
  | _ => option_map str (lookup_group n (groups m))
  end.

(** [s.replace(re, by)] for a pattern without the global flag. *)
Definition replace (icase : bool) (r : re) (by_ : string) (s : string)
  : string :=
  match exec icase r s with
  | Some m => str (pre m) ++ by_ ++ str (post m)
  | None => s
  end.

End Regex.

Import Regex.

Local Open Scope string_scope.

Example regex_word_boundary :
  test true (seqs [WordB; words ["plot"; "data"]; WordB]) "my DATA set" = true
  /\ test true (seqs [WordB; words ["plot"; "data"]; WordB]) "database" = false.
Proof. split; reflexivity. Qed.

(** ** Results of code that can throw *)

Inductive result (A : Type) : Type :=
| Ret (a : A)
| Throw (msg : string).

Arguments Ret {A} a.
Arguments Throw {A} msg.

Definition bind {A B : Type} (r : result A) (f : A -> result B) : result B :=
  match r with
  | Ret a => f a
  | Throw m => Throw m
  end.

Notation "x <- r ;; k" := (bind r (fun x => k))
  (at level 61, r at next level, right associativity).

(** [l.map(f)] where [f] may throw: the first exception ends the map. *)
Fixpoint map_result {A B : Type} (f : A -> result B) (l : list A)
  : result (list B) :=
  match l with
  | [] => Ret []
  | a :: r => b <- f a ;; bs <- map_result f r ;; Ret (b :: bs)
  end.

(** ** Numbers

    The arithmetic the tools use, as an interface with two instances:
    IEEE-754 binary64 (what the program runs on) and exact real arithmetic
    extended with NaN (what the arithmetic means when nothing is rounded). *)

Class JSNum (num : Type) : Type := {
  nan : num;
  zero : num;
  of_nat : nat -> num;
  isNaN : num -> bool;
  add : num -> num -> num;
  sub : num -> num -> num;
  mul : num -> num -> num;
  div : num -> num -> num;
  sqrt : num -> num;
  (** [a < b]; [false] when either side is NaN *)
  lt : num -> num -> bool
}.

(** [a <= b] as the program would test it. *)
Definition le {num} `{JSNum num} (a b : num) : bool :=
  negb (isNaN a) && negb (isNaN b) && negb (lt b a).

(** A number is truthy unless it is zero or NaN. *)
Definition num_truthy {num} `{JSNum num} (x : num) : bool :=
  lt x zero || lt zero x.

#[export] Instance float_num : JSNum float := {
  nan := PrimFloat.nan;
  zero := PrimFloat.zero;
  of_nat n := PrimFloat.of_uint63 (Uint63.of_Z (Z.of_nat n));
  isNaN := PrimFloat.is_nan;
  add := PrimFloat.add;
  sub := PrimFloat.sub;
  mul := PrimFloat.mul;
  div := PrimFloat.div;
  sqrt := PrimFloat.sqrt;
  lt := PrimFloat.ltb
}.

(** Exact numbers: a real or NaN.  There is no infinity: dividing by zero
    gives NaN (the statistics divide by a count of at least one, and by 2). *)
Inductive xreal : Type :=
| XNaN
| XR (r : R).

Definition xlift2 (f : R -> R -> R) (a b : xreal) : xreal :=
  match a, b with
  | XR x, XR y => XR (f x y)
  | _, _ => XNaN
  end.

Definition xdiv (a b : xreal) : xreal :=
  match a, b with
  | XR x, XR y => if Req_dec_T y 0 then XNaN else XR (x / y)
  | _, _ => XNaN
  end.

Definition xsqrt (a : xreal) : xreal :=
  match a with
  | XR x => if Rlt_dec x 0 then XNaN else XR (R_sqrt.sqrt x)
  | XNaN => XNaN
  end.

Definition xlt (a b : xreal) : bool :=
  match a, b with
  | XR x, XR y => if Rlt_dec x y then true else false
  | _, _ => false
  end.

#[export] Instance exact_num : JSNum xreal := {
  nan := XNaN;
  zero := XR 0;
  of_nat n := XR (INR n);
  isNaN a := match a with XNaN => true | XR _ => false end;
  add := xlift2 Rplus;
  sub := xlift2 Rminus;
  mul := xlift2 Rmult;
  div := xdiv;
  sqrt := xsqrt;
  lt := xlt
}.

(** ** JSON values and the language's coercions

    A value as [JSON.parse] builds it.  An object is the list of its own
    properties in insertion order, each key once. *)

Inductive json (num : Type) : Type :=
| JNull
| JBool (b : bool)
| JNum (x : num)
| JStr (s : string)
| JArr (l : list (json num))
| JObj (o : list (string * json num)).

Arguments JNull {num}.
Arguments JBool {num} b.
Arguments JNum {num} x.
Arguments JStr {num} s.
Arguments JArr {num} l.
Arguments JObj {num} o.

(** The host functions the sources call on primitive values.  Their
    results are fixed by the language standard and the browser, not by this
    program; every theorem below holds whatever they return. *)
Record Host (num : Type) : Type := mkHost {
  (** [Number(s)] for a string *)
  StringToNumber : string -> num;
  (** [String(x)] for a number *)
  NumberToString : num -> string;
  (** [x.toFixed(2)] *)
  toFixed2 : num -> string;
  (** [Date.parse(s)]: the time value, [None] for an invalid date *)
  DateParse : string -> option Z;
  (** the time value of [new Date(x)] for a number *)
  TimeClip : num -> option Z;
  (** [d.toISOString()] of a valid date *)
  toISOString : Z -> string;
  (** [JSON.parse(text)]: the value, or the message of the error thrown *)
  JSON_parse : string -> result (json num)
}.

Fixpoint includes_chars (needle hay : list ascii) : bool :=
  match hay with
  | [] => match needle with [] => true | _ => false end
  | _ :: hay' =>
      (if list_eq_dec ascii_dec (firstn (List.length needle) hay) needle
       then true else false)
      || includes_chars needle hay'
  end.

(** [hay.includes(needle)] *)
Definition includes (hay needle : string) : bool :=
  includes_chars (chars needle) (chars hay).

Section Values.

Context {num : Type} `{JSNum num} (host : Host num).

(** A value: a JSON value or [undefined]. *)
Definition value : Type := option (json num).

Fixpoint assoc (k : string) (o : list (string * json num)) : value :=
  match o with
  | [] => None
  | (k', v) :: o' => if String.eqb k k' then Some v else assoc k o'
  end.

Definition has_key (k : string) (o : list (string * json num)) : bool :=
  match assoc k o with Some _ => true | None => false end.

(** [v[k]] for a data field [k]: an own property of an object, [undefined]
    on any other value, a [TypeError] on [null].  (Field names are taken
    not to name a built-in member such as [length] or [constructor].) *)
Definition get (v : json num) (k : string) : result value :=
  match v with
  | JNull => Throw "TypeError: Cannot read properties of null"
  | JObj o => Ret (assoc k o)
  | _ => Ret None
  end.

Definition nullish (v : value) : bool :=
  match v with
  | None | Some JNull => true
  | _ => false
  end.

Definition truthy (v : value) : bool :=
  match v with
  | None | Some JNull => false
  | Some (JBool b) => b
  | Some (JNum x) => num_truthy x
  | Some (JStr s) => negb (is_empty s)
  | Some (JArr _) | Some (JObj _) => true
  end.

(** [base?.[k]]: [undefined] when [base] is nullish. *)
Definition get_opt (base : value) (k : string) : result value :=
  match base with
  | None | Some JNull => Ret None
  | Some b => get b k
  end.

(** [v.a?.[k]] *)
Definition get2 (v : json num) (a k : string) : result value :=
  base <- get v a ;; get_opt base k.

(** [a || b] and [a ?? b], the right operand evaluated on demand. *)
Definition or_else (a : value) (b : result value) : result value :=
  if truthy a then Ret a else b.

Definition coalesce (a : value) (b : result value) : result value :=
  if nullish a then b else Ret a.

(** [String(v)].  An object converts through [Object.prototype.toString]
    unless an own [toString] property (never callable in parsed JSON)
    hides it, in which case the conversion throws. *)
Fixpoint to_string (v : json num) : result string :=
  match v with
  | JNull => Ret "null"
  | JBool true => Ret "true"
  | JBool false => Ret "false"
  | JNum x => Ret (NumberToString host x)
  | JStr s => Ret s
  | JArr l =>
      (fix elems (l : list (json num)) : result string :=
         match l with
         | [] => Ret ""
         | e :: r =>
             s <- match e with JNull => Ret "" | _ => to_string e end ;;
             match r with
             | [] => Ret s
             | _ :: _ => t <- elems r ;; Ret (s ++ "," ++ t)
             end
         end) l
  | JObj o =>
      if has_key "toString" o
      then Throw "TypeError: Cannot convert object to primitive value"
      else Ret "[object Object]"
  end.

Definition string_of_value (v : value) : result string :=
  match v with
  | None => Ret "undefined"
  | Some j => to_string j
  end.

(** [Number(v)] *)
Definition to_number (v : value) : result num :=
  match v with
  | None => Ret nan
  | Some JNull => Ret zero
  | Some (JBool true) => Ret (of_nat 1)
  | Some (JBool false) => Ret zero
  | Some (JNum x) => Ret x
  | Some (JStr s) => Ret (StringToNumber host s)
  | Some j => s <- to_string j ;; Ret (StringToNumber host s)
  end.

(** The time value of [new Date(v)]; [None] is an invalid date. *)
Definition new_Date (v : json num) : result (option Z) :=
  match v with
  | JStr s => Ret (DateParse host s)
  | JArr _ | JObj _ => s <- to_string v ;; Ret (DateParse host s)
  | _ => n <- to_number (Some v) ;; Ret (TimeClip host n)
  end.

End Values.

(** ** [Array.prototype.sort]

    The sort is stable and, for a comparator that is a consistent order,
    its result does not depend on the engine.  [before a b] stands for
    "the comparator's result on [(a, b)] is negative". *)

Section Sort.

Variable A : Type.
Variable before : A -> A -> bool.

Fixpoint insert (x : A) (l : list A) : list A :=
  match l with
  | [] => [x]
  | y :: r => if before y x then y :: insert x r else x :: l
  end.

Definition js_sort (l : list A) : list A := fold_right insert [] l.

End Sort.

(** ** services/jsonTools.js *)

Module JsonTools.

Section Tools.

Context {num : Type} `{JSNum num} (host : Host num).

#[local] Abbreviation json := (json num).
#[local] Abbreviation value := (@value num).

(** [getVideos]: the videos array of a channel JSON. *)
Definition getVideos (channelJson : value) : list json :=
  if negb (truthy channelJson) then []
  else
    match channelJson with
    | Some (JObj o) =>
        match assoc "videos" o with
        | Some (JArr vs) => vs
        | _ =>
            match assoc "items" o with
            | Some (JArr vs) => vs
            | _ => []
            end
        end
    | _ => []
    end.

(** [metric || 'view_count'] *)
Definition key_of (name : option string) : string :=
  match name with
  | Some s => if is_empty s then "view_count" else s
  | None => "view_count"
  end.

(** The value looked up for a field, shared by the plot and the stats tool:
    [v[key] ?? v[`${key}_count`] ?? v.statistics?.[key] ??
     v.statistics?.[`${key}_count`] ??
     (key === 'view_count' ? v.view_count || v.statistics?.viewCount
                           : undefined)]. *)
Definition field_value (v : json) (key : string) : result value :=
  a <- get v key ;;
  coalesce a (
    b <- get v (key ++ "_count") ;;
    coalesce b (
      c <- get2 v "statistics" key ;;
      coalesce c (
        d <- get2 v "statistics" (key ++ "_count") ;;
        coalesce d (
          if String.eqb key "view_count"
          then e <- get v "view_count" ;;
               or_else e (get2 v "statistics" "viewCount")
          else Ret None)))).

Record point : Type := mkPoint {
  date : string;
  label : json;
  value_of : num
}.

(** [v.title || v.snippet?.title || ''] *)
Definition title_of (v : json) : result value :=
  t <- get v "title" ;;
  or_else t (s <- get2 v "snippet" "title" ;; or_else s (Ret (Some (JStr "")))).

(** [title.slice(0, n)]: strings and arrays have [slice]. *)
Definition title_slice (n : nat) (title : value) : result json :=
  match title with
  | Some (JStr s) => Ret (JStr (slice0 n s))
  | Some (JArr l) => Ret (JArr (firstn n l))
  | _ => Throw "TypeError: title.slice is not a function"
  end.

(** [v.published_at || v.publishedAt || v.snippet?.publishedAt] *)
Definition raw_date (v : json) : result value :=
  a <- get v "published_at" ;;
  or_else a (b <- get v "publishedAt" ;; or_else b (get2 v "snippet" "publishedAt")).

(** The callback of [videos.map] in [plotMetricVsTimeTool]; [None] is the
    [null] it returns for a video it leaves out. *)
Definition plot_point (key : string) (v : json) : result (option point) :=
  rawDate <- raw_date v ;;
  title <- title_of v ;;
  val <- field_value v key ;;
  n <- to_number host val ;;
  d <- match rawDate with
       | Some r => if truthy rawDate then new_Date host r else Ret None
       | None => Ret None
       end ;;
  match d with
  | Some t =>
      if negb (truthy rawDate) || isNaN n then Ret None
      else
        lbl <- title_slice 60 title ;;
        Ret (Some (mkPoint (slice0 10 (toISOString host t)) lbl n))
  | None => Ret None
  end.

Fixpoint somes {A : Type} (l : list (option A)) : list A :=
  match l with
  | [] => []
  | Some a :: r => a :: somes r
  | None :: r => somes r
  end.

(** The comparator [(a, b) => (a.date < b.date ? -1 : a.date > b.date ? 1 : 0)]
    is negative exactly when [a.date < b.date]. *)
Definition date_before (a b : point) : bool := String.ltb (date a) (date b).

Definition no_videos_error : string :=
  "No videos loaded. Please attach a YouTube channel JSON file first.".

Inductive plot_result : Type :=
| PlotError (error : string)
| PlotChart (metric : option string) (data : list point).

Definition metric_text (metric : option string) : string :=
  match metric with Some m => m | None => "undefined" end.

Definition plotMetricVsTimeTool (channelJson : value) (metric : option string)
  : result plot_result :=
  let videos := getVideos channelJson in
  match videos with
  | [] => Ret (PlotError no_videos_error)
  | _ :: _ =>
      let key := key_of metric in
      mapped <- map_result (plot_point key) videos ;;
      let data := js_sort date_before (somes mapped) in
      match data with
      | [] =>
          Ret (PlotError ("Could not find numeric data for metric "
                          ++ quoted (metric_text metric) ++ "."))
      | _ :: _ => Ret (PlotChart metric data)
      end
  end.

(** *** [computeStatsJsonTool] *)

Record stats : Type := mkStats {
  field : option string;
  count : nat;
  mean : num;
  median : num;
  std : num;
  min : num;
  max : num
}.

Inductive stats_result : Type :=
| StatsError (error : string)
| Stats (s : stats).

(** The callback of [videos.map]: [Number(raw)], or [null] when it is NaN. *)
Definition stat_value (key : string) (v : json) : result (option num) :=
  raw <- field_value v key ;;
  n <- to_number host raw ;;
  Ret (if isNaN n then None else Some n).

(** The comparator [(a, b) => a - b] is negative when [a - b < 0]. *)
Definition num_before (a b : num) : bool := lt (sub a b) zero.

(** [xs.reduce((a, b) => a + b, 0)] *)
Definition sum (xs : list num) : num := fold_left add xs zero.

(** [xs.reduce((a, b) => a + (b - mean) ** 2, 0)], the square taken as
    the product of the difference with itself *)
Definition sum_sq (m : num) (xs : list num) : num :=
  fold_left (fun a b => add a (mul (sub b m) (sub b m))) xs zero.

(** [sorted[i]]; an index past the end would read [undefined]. *)
Definition at_ (sorted : list num) (i : nat) : num := nth i sorted nan.

Definition stats_of (fld : option string) (values : list num) : stats :=
  let sorted := js_sort num_before values in
  let count := List.length values in
  let mean := div (sum values) (of_nat count) in
  let median :=
    if Nat.eqb (Nat.modulo count 2) 0
    then div (add (at_ sorted (Nat.div count 2 - 1)) (at_ sorted (Nat.div count 2)))
             (of_nat 2)
    else at_ sorted (Nat.div (count - 1) 2) in
  let variance := div (sum_sq mean values) (of_nat count) in
  mkStats fld count mean median (sqrt variance)
          (at_ sorted 0) (at_ sorted (List.length sorted - 1)).

Definition computeStatsJsonTool (channelJson : value) (fld : option string)
  : result stats_result :=
  let videos := getVideos channelJson in
  match videos with
  | [] => Ret (StatsError no_videos_error)
  | _ :: _ =>
      let key := key_of fld in
      mapped <- map_result (stat_value key) videos ;;
      let values := somes mapped in
      match values with
      | [] =>
          Ret (StatsError ("No numeric values found for field "
                           ++ quoted (metric_text fld) ++ "."))
      | _ :: _ => Ret (Stats (stats_of fld values))
      end
  end.

(** *** [playVideoTool] *)

Record video : Type := mkVideo {
  videoId : value;
  title : value;
  thumbnailUrl : value;
  viewCount : num;
  url : value
}.

Definition watch_url (id : json) : result value :=
  s <- to_string host id ;;
  Ret (Some (JStr ("https://www.youtube.com/watch?v=" ++ s))).

(** The callback of [videos.map] in [playVideoTool]. *)
Definition normalise (v : json) : result video :=
  video_id <- get v "video_id" ;;
  id <- get v "id" ;;
  vid <- or_else video_id (or_else id (get2 v "contentDetails" "videoId")) ;;
  ttl <- title_of v ;;
  thumb_url <- get v "thumbnail_url" ;;
  thumb <- or_else thumb_url (
             snippet <- get v "snippet" ;;
             thumbs <- get_opt snippet "thumbnails" ;;
             high <- get_opt thumbs "high" ;;
             high_url <- get_opt high "url" ;;
             or_else high_url (
               thumbs' <- get_opt snippet "thumbnails" ;;
               dflt <- get_opt thumbs' "default" ;;
               dflt_url <- get_opt dflt "url" ;;
               or_else dflt_url (Ret (Some (JStr ""))))) ;;
  view_count <- get v "view_count" ;;
  views_raw <- coalesce view_count (
                 sv <- get2 v "statistics" "viewCount" ;;
                 coalesce sv (
                   vc <- get v "viewCount" ;;
                   coalesce vc (Ret (Some (JNum zero))))) ;;
  views <- to_number host views_raw ;;
  video_url <- get v "video_url" ;;
  link <- or_else video_url (
            a <- (match video_id with
                  | Some i => if truthy video_id then watch_url i else Ret (Some JNull)
                  | None => Ret (Some JNull)
                  end) ;;
            or_else a (
              match id with
              | Some i => if truthy id then watch_url i else Ret (Some JNull)
              | None => Ret (Some JNull)
              end)) ;;
  Ret (mkVideo vid ttl thumb (if num_truthy views then views else zero) link).

(** [(a, b) => b.viewCount - a.viewCount] and [(a, b) => a.viewCount - b.viewCount] *)
Definition more_viewed (a b : video) : bool := num_before (viewCount b) (viewCount a).
Definition less_viewed (a b : video) : bool := num_before (viewCount a) (viewCount b).

(** [v.title.toLowerCase().includes(q)] *)
Definition title_matches (q : string) (v : video) : result bool :=
  match title v with
  | Some (JStr s) => Ret (includes (toLowerCase s) q)
  | _ => Throw "TypeError: v.title.toLowerCase is not a function"
  end.

(** [l.find(p)] where [p] may throw. *)
Fixpoint find_result {A : Type} (p : A -> result bool) (l : list A)
  : result (option A) :=
  match l with
  | [] => Ret None
  | a :: r => b <- p a ;; if b then Ret (Some a) else find_result p r
  end.

Record video_info : Type := mkInfo {
  info_videoId : value;
  info_title : value;
  info_thumbnailUrl : value;
  info_url : value
}.

Inductive play_result : Type :=
| PlayError (error : string)
| PlayInfo (i : video_info).

Definition playVideoTool (channelJson : value) (which : string)
  : result play_result :=
  let videos := getVideos channelJson in
  match videos with
  | [] => Ret (PlayError no_videos_error)
  | _ :: _ =>
      normalised <- map_result normalise videos ;;
      let q := toLowerCase which in
      chosen <-
        (if includes q "most viewed" || includes q "top" || includes q "best"
         then Ret (hd_error (js_sort more_viewed normalised))
         else if includes q "least viewed" || includes q "worst"
         then Ret (hd_error (js_sort less_viewed normalised))
         else if negb (is_empty q)
         then byTitle <- find_result (title_matches q) normalised ;;
              match byTitle with
              | Some v => Ret (Some v)
              | None => Ret (hd_error normalised)
              end
         else Ret (hd_error normalised)) ;;
      match chosen with
      | None => Ret (PlayError "Could not find a matching video in the channel JSON.")
      | Some c =>
          Ret (PlayInfo (mkInfo (videoId c) (title c) (thumbnailUrl c) (url c)))
      end
  end.

End Tools.

End JsonTools.


(** ** Facts about the coercions *)

Section ValueFacts.

Context {num : Type} `{JSNum num} (host : Host num).



Definition is_null (v : json num) : bool :=
  match v with JNull => true | _ => false end.



Lemma get_not_null (v : json num) (k : string) :
  is_null v = false -> exists x, get v k = Ret x.
Proof. destruct v; simpl; try discriminate; eauto. Qed.


Lemma get_opt_total (b : @value num) (k : string) :
  exists x, get_opt b k = Ret x.
Proof. destruct b as [[]|]; simpl; eauto. Qed.

Lemma get2_total (v : json num) (a k : string) :
  is_null v = false -> exists x, get2 v a k = Ret x.
Proof.
  intros Hv. unfold get2. destruct (get_not_null v a Hv) as [b ->]. simpl.
  apply get_opt_total.
Qed.




End ValueFacts.

(** ** Facts about the channel-JSON tools *)

Import JsonTools.


Lemma map_result_total {A B : Type} (f : A -> result B) (l : list A) :
  Forall (fun a => exists b, f a = Ret b) l ->
  exists bs, map_result f l = Ret bs.
Proof.
  induction 1 as [|a r [b Hb] _ [bs Hbs]]; simpl; eauto.
  rewrite Hb. simpl. rewrite Hbs. simpl. eauto.
Qed.

Lemma map_result_throws {A B : Type} (f : A -> result B) (l : list A)
  (a : A) (m : string) :
  In a l -> f a = Throw m -> exists m', map_result f l = Throw m'.
Proof.
  induction l as [|x r IH]; simpl; [tauto|].
  intros [->|Hin] Ha.
  - rewrite Ha. simpl. eauto.
  - destruct (f x); simpl; eauto.
    destruct (IH Hin Ha) as [m' ->]. simpl. eauto.
Qed.

Section ToolFacts.

Context {num : Type} `{JSNum num} (host : Host num).

Lemma coalesce_total (a : @value num) (b : result (@value num)) :
  (exists x, b = Ret x) -> exists x, coalesce a b = Ret x.
Proof. unfold coalesce. destruct (nullish a); eauto. Qed.

Lemma or_else_total (a : @value num) (b : result (@value num)) :
  (exists x, b = Ret x) -> exists x, or_else a b = Ret x.
Proof. unfold or_else. destruct (truthy a); eauto. Qed.



(** Every property read on a video that is not [null] returns. *)
Ltac read_total Hv :=
  repeat first
    [ apply coalesce_total
    | apply or_else_total
    | match goal with
      | |- exists x, (y <- get ?v ?k ;; _) = Ret x =>
          destruct (get_not_null v k Hv) as [? ->]; simpl
      | |- exists x, (y <- get2 ?v ?a ?k ;; _) = Ret x =>
          destruct (get2_total v a k Hv) as [? ->]; simpl
      | |- exists x, get ?v ?k = Ret x => apply (get_not_null v k Hv)
      | |- exists x, get2 ?v ?a ?k = Ret x => apply (get2_total v a k Hv)
      | |- exists x, (if ?c then _ else _) = Ret x => destruct c
      | |- exists x, Ret _ = Ret x => eexists; reflexivity
      end ].


Lemma raw_date_total (v : json num) :
  is_null v = false -> exists x, raw_date v = Ret x.
Proof. intros Hv. unfold raw_date. read_total Hv. Qed.

Lemma title_of_total (v : json num) :
  is_null v = false -> exists x, title_of v = Ret x.
Proof. intros Hv. unfold title_of. read_total Hv. Qed.

Lemma field_value_null (key : string) :
  exists m, field_value (@JNull num) key = Throw m.
Proof. unfold field_value. simpl. eauto. Qed.




End ToolFacts.

(** ** The outcome of the column statistics *)

Section StatsOutcome.

Context {num : Type} `{JSNum num} (host : Host num).






End StatsOutcome.

(** ** A host for the examples

    The theorems hold for every host.  The examples need one to run on:
    it reads numbers written in decimal digits and dates written
    [YYYY-MM-DD] (the time value of a date is the number [YYYYMMDD], which
    orders dates as the calendar does), and it parses two JSON texts. *)

Module ExampleHost.

Fixpoint digits_value (acc : N) (l : list ascii) : option N :=
  match l with
  | [] => Some acc
  | c :: r =>
      if is_digit c
      then digits_value (10 * acc + (N_of_ascii c - 48))%N r
      else None
  end.

Definition decimal (s : string) : option N :=
  match chars s with
  | [] => None
  | l => digits_value 0%N l
  end.

Definition two_digits (n : N) : string :=
  if N.ltb n 10 then "0" ++ N_to_string n else N_to_string n.

Definition parse_date (s : string) : option Z :=
  match chars s with
  | y1 :: y2 :: y3 :: y4 :: d1 :: m1 :: m2 :: d2 :: a1 :: a2 :: _ =>
      if (code d1 =? 45)%nat && (code d2 =? 45)%nat then
        match digits_value 0%N [y1; y2; y3; y4; m1; m2; a1; a2] with
        | Some n => Some (Z.of_N n)
        | None => None
        end
      else None
  | _ => None
  end.

Definition iso_string (t : Z) : string :=
  let n := Z.to_N t in
  N_to_string (N.div n 10000) ++ "-"
  ++ two_digits (N.modulo (N.div n 100) 100) ++ "-"
  ++ two_digits (N.modulo n 100) ++ "T00:00:00.000Z".

Definition host {num : Type} `{JSNum num} : Host num := {|
  StringToNumber s :=
    match decimal (trim s) with
    | Some n => of_nat (N.to_nat n)
    | None => if is_empty (trim s) then zero else nan
    end;
  NumberToString _ := "#";
  toFixed2 _ := "#";
  DateParse := parse_date;
  TimeClip _ := None;
  toISOString := iso_string;
  JSON_parse s :=
    if String.eqb s "{}" then Ret (JObj [])
    else if String.eqb s "null" then Ret JNull
    else Throw "Unexpected end of JSON input"
|}.

End ExampleHost.

Example example_host_date :
  option_map ExampleHost.iso_string (ExampleHost.parse_date "2021-03-04")
  = Some "2021-03-04T00:00:00.000Z".
Proof. reflexivity. Qed.

(** ** Facts about the sort *)

Section SortFacts.

Variable A : Type.
Variable before : A -> A -> bool.
Variable leA : A -> A -> Prop.

(** The comparator is a consistent order: [leA] is a preorder that the
    comparator's sign decides. *)
Hypothesis leA_trans : forall a b c, leA a b -> leA b c -> leA a c.
Hypothesis before_true : forall a b, before a b = true -> leA a b.
Hypothesis before_false : forall a b, before a b = false -> leA b a.







End SortFacts.






(** ** The metric-vs-time plot *)

Section PlotFacts.

Context {num : Type} `{JSNum num} (host : Host num).








End PlotFacts.

(** ** Column statistics: error marker or record *)

Section StatsErrors.

Context {num : Type} `{JSNum num} (host : Host num).




End StatsErrors.

(** ** The tools run on binary64 numbers *)

Module FloatRuns.

Definition host : Host float := ExampleHost.host.

Definition videos_of (vs : list (json float)) : @value float :=
  Some (JObj [("videos", JArr vs)]).

Definition row (fld : string) (x : float) : json float :=
  JObj [(fld, JNum x)].

(** A channel file whose only entry is [null]. *)
Definition null_entry : @value float := videos_of [JNull].


Definition two_views : @value float :=
  videos_of [row "view_count" 5%float; row "view_count" 3%float].

End FloatRuns.



Example computeStats_two_views :
  exists s,
    computeStatsJsonTool FloatRuns.host FloatRuns.two_views (Some "view_count")
    = Ret (Stats s)
    /\ count s = 2%nat /\ PrimFloat.eqb (mean s) 4%float = true
    /\ PrimFloat.eqb (median s) 4%float = true
    /\ PrimFloat.eqb (min s) 3%float = true
    /\ PrimFloat.eqb (max s) 5%float = true
    /\ PrimFloat.eqb (std s) 1%float = true.
Proof. eexists. split; [reflexivity|]. repeat split; vm_compute; reflexivity. Qed.


(** On binary64 numbers the midpoint of two large values overflows: the
    median of 1e308 and 1e308 is infinite, above the maximum. *)
Example computeStats_median_overflow :
  exists s,
    computeStatsJsonTool FloatRuns.host
      (FloatRuns.videos_of [FloatRuns.row "duration" 1e308%float;
                            FloatRuns.row "duration" 1e308%float])
      (Some "duration")
    = Ret (Stats s)
    /\ PrimFloat.eqb (median s) PrimFloat.infinity = true
    /\ le (median s) (max s) = false.
Proof. eexists. split; [reflexivity|]. split; vm_compute; reflexivity. Qed.

(** The plot tool on three videos: one out of order, one without a date. *)
Example plotMetricVsTime_sample :
  match
    plotMetricVsTimeTool FloatRuns.host
      (FloatRuns.videos_of
         [JObj [("published_at", JStr "2021-03-04"); ("view_count", JNum 7%float)];
          JObj [("view_count", JNum 9%float)];
          JObj [("publishedAt", JStr "2020-12-31T10:00:00Z");
                ("statistics", JObj [("view_count", JStr "12")])]])
      (Some "view_count")
  with
  | Ret (PlotChart _ data) => map (fun p => date p) data
  | _ => []
  end = ["2020-12-31"; "2021-03-04"].
Proof. vm_compute. reflexivity. Qed.

Example plotMetricVsTime_null_entry :
  plotMetricVsTimeTool FloatRuns.host FloatRuns.null_entry (Some "view_count")
  = Throw "TypeError: Cannot read properties of null".
Proof. reflexivity. Qed.

(** ** Column statistics in exact arithmetic *)

Section ExactStats.

Local Open Scope R_scope.
















End ExactStats.

Example computeStats_exact_runs :
  exists s,
    computeStatsJsonTool (num := xreal) ExampleHost.host
      (Some (JObj [("videos", JArr [JObj [("likes", JNum (XR 3))];
                                    JObj [("likes", JStr "n/a")];
                                    JObj [("likes", JNum (XR 5))]])]))
      (Some "likes")
    = Ret (Stats s) /\ count s = 2%nat.
Proof. eexists. split; reflexivity. Qed.

(** ** components/YoutubeDownload.js *)

Module YoutubeDownload.

(** The longest prefix of decimal digits and its value. *)
Fixpoint leading_digits (acc : option Z) (l : list ascii) : option Z :=
  match l with
  | c :: r =>
      if is_digit c
      then leading_digits
             (Some (10 * match acc with Some a => a | None => 0 end
                    + Z.of_nat (code c - 48))%Z) r
      else acc
  | [] => acc
  end.

(** [Number.parseInt(s, 10)]: leading white space is skipped, a sign is
    read, then the longest run of digits; [None] is NaN.  The result is
    the exact integer (a very long run of digits would round to a nearby
    double, which clamps to the same bound as the integer does). *)
Definition parseInt10 (s : string) : option Z :=
  match drop_while is_space (chars s) with
  | c :: r =>
      if (code c =? 45)%nat then option_map Z.opp (leading_digits None r)
      else if (code c =? 43)%nat then leading_digits None r
      else leading_digits None (c :: r)
  | [] => None
  end.

Section Download.

Context {num : Type} `{JSNum num} (host : Host num).

(** What the form keeps in [maxVideos]: the number it was initialised or
    clamped to, or the text typed into the field. *)
Inductive form_value : Type :=
| FieldNumber (x : num)
| FieldText (s : string).

(** [String(v || '')] *)
Definition field_text (v : form_value) : string :=
  match v with
  | FieldNumber x => if num_truthy x then NumberToString host x else EmptyString
  | FieldText s => s
  end.

Definition clampInt (v : form_value) (min max : Z) : Z :=
  match parseInt10 (field_text v) with
  | None => min
  | Some n => Z.max min (Z.min max n)
  end.

Definition SAMPLE_URL : string := "/veritasium_channel_sample.json".

(** [/youtube\.com\/@veritasium\b/i] *)
Definition veritasium_re : re :=
  seqs [lit "youtube"; Chr "."; lit "com/@veritasium"; WordB].

Record channel : Type := mkChannel {
  handle : string;
  channel_url : string;
  channel_title : @value num;
  downloaded_at : string;
  max_videos_requested : Z
}.

Record payload : Type := mkPayload {
  payload_channel : channel;
  videos : list (json num)
}.

Record state : Type := mkState {
  url : string;
  maxVideos : form_value;
  downloading : bool;
  progress : nat;
  error : string;
  data : option payload
}.

(** What the network answers to [fetch(SAMPLE_URL)]. *)
Inductive fetched : Type :=
| FetchRejected (message : string)
| FetchStatus (status : string)
| FetchBodyRejected (message : string)
| FetchBody (raw : json num).

(** [e?.message || 'Download failed'] *)
Definition failure_text (message : string) : string :=
  if is_empty message then "Download failed" else message.

(** The [try] block of [handleDownload]: the payload, or what is thrown. *)
Definition download (st : state) (targetMax : Z) (answer : fetched)
  (now : string) : result payload :=
  if negb (test true veritasium_re (trim (url st))) then
    Throw "This demo is wired for https://www.youtube.com/@veritasium (sample download)."
  else
    match answer with
    | FetchRejected m => Throw m
    | FetchStatus status =>
        Throw ("Failed to load sample channel JSON (" ++ status ++ ")")
    | FetchBodyRejected m => Throw m
    | FetchBody raw =>
        raw_videos <- get raw "videos" ;;
        let vids :=
          match raw_videos with
          | Some (JArr l) => firstn (Z.to_nat targetMax) l
          | _ => []
          end in
        chan <- get_opt (Some raw) "channel" ;;
        ttl <- get_opt chan "title" ;;
        title <- or_else ttl (Ret (Some (JStr "Veritasium"))) ;;
        Ret (mkPayload
               (mkChannel "veritasium" "https://www.youtube.com/@veritasium"
                          title now targetMax)
               vids)
    end.

(** [handleDownload], from the click to the state after [finally].  (The
    interval timer only moves the progress bar while the fetch is pending;
    the last write to [progress] is the one below.) *)
Definition handleDownload (st : state) (answer : fetched) (now : string)
  : state :=
  let targetMax := clampInt (maxVideos st) 1 100 in
  let shown := FieldNumber (of_nat (Z.to_nat targetMax)) in
  match download st targetMax answer now with
  | Ret p => mkState (url st) shown false 100 EmptyString (Some p)
  | Throw m => mkState (url st) shown false 0 (failure_text m) None
  end.

End Download.

End YoutubeDownload.

(** ** The download form clamps its request *)

Section DownloadFacts.

Import YoutubeDownload.

Context {num : Type} `{JSNum num} (host : Host num).

Lemma clampInt_range (v : form_value) (min max : Z) :
  (min <= max)%Z -> (min <= clampInt host v min max <= max)%Z.
Proof. unfold clampInt. destruct (parseInt10 _); lia. Qed.

Lemma download_videos (st : state) (targetMax : Z) (answer : fetched)
  (now : string) (p : payload) :
  download st targetMax answer now = Ret p ->
  (List.length (videos p) <= Z.to_nat targetMax)%nat /\
  max_videos_requested (payload_channel p) = targetMax.
Proof.
  unfold download.
  destruct (negb _); [discriminate|].
  destruct answer as [m|status|m|raw]; try discriminate.
  destruct (get raw "videos") as [rv|]; cbn [bind]; [|discriminate].
  destruct (get_opt (Some raw) "channel") as [chan|]; cbn [bind]; [|discriminate].
  destruct (get_opt chan "title") as [ttl|]; cbn [bind]; [|discriminate].
  destruct (or_else ttl _) as [title|]; cbn [bind]; [|discriminate].
  intros [= <-]. cbn [videos payload_channel max_videos_requested]. split; [|reflexivity].
  destruct rv as [[| | | |l|]|]; simpl; try lia.
  rewrite length_firstn. lia.
Qed.

(** C10.  [clampInt] returns an integer between its bounds, the lower
    bound when the text has no integer to read; so every payload the
    download handler produces holds at most 100 videos and records a
    request between 1 and 100. *)
Theorem clampInt_bounds_download
  (v : form_value) (min max : Z) (st : state) (answer : fetched)
  (now : string) :
  (min <= max)%Z ->
  (min <= clampInt host v min max <= max)%Z /\
  (parseInt10 (field_text host v) = None -> clampInt host v min max = min) /\
  match data (handleDownload host st answer now) with
  | Some p =>
      (List.length (videos p) <= 100)%nat /\
      (1 <= max_videos_requested (payload_channel p) <= 100)%Z
  | None => True
  end.
Proof.
  intros Hle. split; [apply clampInt_range, Hle|]. split.
  - unfold clampInt. intros ->. reflexivity.
  - unfold handleDownload.
    pose proof (clampInt_range (maxVideos st) (min := 1) (max := 100)) as Hc.
    destruct (download st (clampInt host (maxVideos st) 1 100) answer now)
      as [p|m] eqn:Ed; cbn [data]; [|exact I].
    apply download_videos in Ed as [Hlen ->]. lia.
Qed.

End DownloadFacts.

Lemma clampInt_bounds_download_witness :
  (1 <= YoutubeDownload.clampInt (num := float) ExampleHost.host
          (YoutubeDownload.FieldText "250") 1 100 <= 100)%Z /\
  (YoutubeDownload.parseInt10
     (YoutubeDownload.field_text (num := float) ExampleHost.host
        (YoutubeDownload.FieldText "250")) = None ->
   YoutubeDownload.clampInt (num := float) ExampleHost.host
     (YoutubeDownload.FieldText "250") 1 100 = 1%Z) /\
  match
    YoutubeDownload.data
      (YoutubeDownload.handleDownload (num := float) ExampleHost.host
         (YoutubeDownload.mkState "https://www.youtube.com/@veritasium"
            (YoutubeDownload.FieldText "2") false 0 EmptyString None)
         (YoutubeDownload.FetchBody
            (JObj [("videos", JArr [JStr "a"; JStr "b"; JStr "c"])]))
         "2026-01-01T00:00:00.000Z")
  with
  | Some p =>
      (List.length (YoutubeDownload.videos p) <= 100)%nat /\
      (1 <= YoutubeDownload.max_videos_requested
              (YoutubeDownload.payload_channel p) <= 100)%Z
  | None => True
  end.
Proof.
  apply (clampInt_bounds_download (num := float) ExampleHost.host).
  lia.
Defined.

Example clampInt_examples :
  let clamp s :=
    YoutubeDownload.clampInt (num := float) ExampleHost.host
      (YoutubeDownload.FieldText s) 1 100 in
  clamp "250" = 100%Z /\ clamp "abc" = 1%Z /\ clamp "" = 1%Z /\
  clamp "-5" = 1%Z /\ clamp " 42px" = 42%Z /\ clamp "7.9" = 7%Z.
Proof. repeat split; reflexivity. Qed.

Example handleDownload_truncates :
  option_map (fun p => YoutubeDownload.videos p)
    (YoutubeDownload.data
       (YoutubeDownload.handleDownload (num := float) ExampleHost.host
          (YoutubeDownload.mkState "https://www.youtube.com/@veritasium"
             (YoutubeDownload.FieldText "2") false 0 EmptyString None)
          (YoutubeDownload.FetchBody
             (JObj [("videos", JArr [JStr "a"; JStr "b"; JStr "c"])]))
          "2026-01-01T00:00:00.000Z"))
  = Some [JStr "a"; JStr "b"].
Proof. reflexivity. Qed.

(** ** Text helpers of components/Chat.js *)

(** [s.replace(re, by)] for a pattern with the global flag: every match
    from left to right, an empty match stepping over one character. *)
Fixpoint replace_all_from (icase : bool) (r : re) (by_ : list ascii)
  (fuel : nat) (prev : option ascii) (l : list ascii) : list ascii :=
  match fuel with
  | O => l
  | S fuel' =>
      match search icase r [] prev l with
      | None => l
      | Some m =>
          (pre m ++ by_ ++
           match whole m with
           | [] =>
               match post m with
               | [] => []
               | c :: l' => c :: replace_all_from icase r by_ fuel' (Some c) l'
               end
           | _ :: _ =>
               replace_all_from icase r by_ fuel' (Some (last (whole m) "000"%char))
                 (post m)
           end)%list
      end
  end.

Definition replace_all (icase : bool) (r : re) (by_ : string) (s : string)
  : string :=
  str (replace_all_from icase r (chars by_) (S (String.length s)) None (chars s)).

(** [s.split(c)] for a one-character separator. *)
Fixpoint split_chars (sep : ascii) (cur : list ascii) (l : list ascii)
  : list (list ascii) :=
  match l with
  | [] => [rev cur]
  | c :: r =>
      if Ascii.eqb c sep then rev cur :: split_chars sep [] r
      else split_chars sep (c :: cur) r
  end.

Definition split (sep : ascii) (s : string) : list string :=
  map str (split_chars sep [] (chars s)).

Definition endsWith (s suffix : string) : bool :=
  String.eqb
    (str (skipn (String.length s - String.length suffix) (chars s))) suffix
  && (String.length suffix <=? String.length s)%nat.

Definition startsWith (s pfx : string) : bool := String.prefix pfx s.

(** [new TextEncoder().encode(str)]: the UTF-8 bytes of code units below
    U+0100. *)
Definition utf8 (c : ascii) : list nat :=
  if (code c <? 128)%nat then [code c]
  else [192 + Nat.div (code c) 64; 128 + Nat.modulo (code c) 64]%nat.

Definition base64_alphabet : list ascii :=
  chars "ABCDEFGHIJKLMNOPQRSTUVWXYZabcdefghijklmnopqrstuvwxyz0123456789+/".

Definition sextet (v : nat) : ascii := nth v base64_alphabet "="%char.

(** [btoa] on a string of bytes. *)
Fixpoint btoa (bytes : list nat) : list ascii :=
  match bytes with
  | a :: b :: c :: r =>
      sextet (Nat.div a 4)
      :: sextet (Nat.modulo a 4 * 16 + Nat.div b 16)
      :: sextet (Nat.modulo b 16 * 4 + Nat.div c 64)
      :: sextet (Nat.modulo c 64) :: btoa r
  | [a; b] =>
      [sextet (Nat.div a 4); sextet (Nat.modulo a 4 * 16 + Nat.div b 16);
       sextet (Nat.modulo b 16 * 4); "="%char]
  | [a] =>
      [sextet (Nat.div a 4); sextet (Nat.modulo a 4 * 16); "="%char; "="%char]
  | [] => []
  end.

Definition toBase64 (s : string) : string :=
  str (btoa (flat_map utf8 (chars s))).

Example toBase64_sample : toBase64 "a,b" = "YSxi" /\ toBase64 "hi" = "aGk=".
Proof. split; reflexivity. Qed.

Record CsvContext : Type := mkCsv {
  csv_name : string;
  headers : list string;
  rowCount : nat;
  preview : string;
  base64 : string;
  truncated : bool
}.


Definition quote_at_ends : re := Alt (Seq Bol (Chr (ascii_of_nat 34)))
                                     (Seq (Chr (ascii_of_nat 34)) Eol).

Definition too_long (text : string) : bool :=
  (500000 <? N.of_nat (String.length text))%N.

(** [parseCSV]: the attachment chip of a CSV text ([None] is [null]); the
    name is added by the caller. *)
Definition parseCSV (text : string) : option CsvContext :=
  let lines := filter (fun l => negb (is_empty (trim l))) (split "010"%char text) in
  match lines with
  | [] => None
  | first :: _ =>
      let headers :=
        map (fun h => replace_all false quote_at_ends EmptyString (trim h))
            (split ","%char first) in
      let rowCount := (List.length lines - 1)%nat in
      let preview := join (String "010"%char EmptyString) (firstn 6 lines) in
      let raw := if too_long text then slice0 (N.to_nat 500000) text else text in
      Some (mkCsv EmptyString headers rowCount preview (toBase64 raw)
                  (too_long text))
  end.

Example parseCSV_sample :
  option_map (fun c => (headers c, rowCount c, base64 c))
    (parseCSV ("name," ++ quoted "likes" ++ String "010"%char "a,1"))
  = Some (["name"; "likes"], 1%nat, "bmFtZSwibGlrZXMiCmEsMQ==").
Proof. reflexivity. Qed.

(** ** services/gemini.js and the image tool of services/jsonTools.js *)

(** One part of a structured response. *)
Inductive part : Type :=
| PartText (text : string)
| PartCode (language code : string)
| PartResult (outcome output : string)
| PartImage (mimeType data : string).


Definition nl : string := String "010"%char EmptyString.

Module Gemini.

(** [CODE_KEYWORDS] *)
Definition CODE_KEYWORDS : re :=
  seqs [WordB;
        alts [lit "plot"; lit "chart"; lit "graph"; lit "analyz";
              lit "statistic"; lit "regression"; lit "correlat";
              lit "histogram"; lit "visualiz"; lit "calculat"; lit "compute";
              lit "run code"; lit "write code"; lit "execute"; lit "pandas";
              lit "numpy"; lit "matplotlib"; lit "csv"; lit "data"];
        WordB].

(** One earlier message as the services receive it. *)
Record turn : Type := mkTurn {
  turn_role : string;
  turn_content : string
}.

Record image_part : Type := mkImagePart {
  part_mimeType : string;
  part_data : string
}.

Inductive content_part : Type :=
| TextPart (text : string)
| ImagePart (data mime_type : string).

Record content : Type := mkContent {
  content_role : string;
  content_parts : list content_part
}.

(** What the generator of [streamChat] can yield, as [handleSend] reads it. *)
Inductive chunk : Type :=
| TextChunk (text : string)
| FullResponse (parts : list part)
| Grounding (data : string).

Section Client.

(** The model API and the prompt file: [loadSystemPrompt()] (the trimmed
    text of /prompt_chat.txt, empty when it cannot be fetched) and
    [genAI.models.generateContent], which returns the response text,
    possibly missing, or throws. *)
Variable systemInstruction : string.
Variable generateContent : list content -> result (option string).

Definition preamble : list content :=
  if is_empty systemInstruction then []
  else
    [mkContent "user"
       [TextPart ("Follow these instructions in every response:" ++ nl ++ nl
                  ++ systemInstruction)];
     mkContent "model" [TextPart "Got it! I'll follow those instructions."]].

Definition history_contents (history : list turn) : list content :=
  map (fun m =>
         mkContent (if String.eqb (turn_role m) "user" then "user" else "model")
                   [TextPart (turn_content m)])
      history.

Definition or_png (mimeType : string) : string :=
  if is_empty mimeType then "image/png" else mimeType.

(** [streamChat]: the chunks the generator yields, in order, and the
    message of the error it ends with, if any.  (The flag for code
    execution is accepted and not used.) *)
Definition streamChat (history : list turn) (newMessage : string)
  (imageParts : list image_part) (useCodeExecution : bool)
  : list chunk * option string :=
  let finalParts :=
    TextPart newMessage
    :: map (fun img => ImagePart (part_data img) (or_png (part_mimeType img)))
           imageParts in
  let contents :=
    (preamble ++ history_contents history ++ [mkContent "user" finalParts])%list in
  match generateContent contents with
  | Throw m => ([], Some m)
  | Ret response =>
      let text := match response with Some t => t | None => EmptyString end in
      if is_empty text then ([], None) else ([TextChunk text], None)
  end.

(** [chatWithCsvTools]: the answer; its charts and tool calls are always
    empty lists.  (The tool executor is accepted and not used.) *)
Definition chatWithCsvTools (history : list turn) (newMessage : string)
  (csvHeaders : option (list string)) : result string :=
  let msgWithContext :=
    match csvHeaders with
    | Some (h :: hs) =>
        "[CSV columns: " ++ join ", " (h :: hs) ++ "]" ++ nl ++ nl ++ newMessage
    | _ => newMessage
    end in
  let contents :=
    (preamble ++ history_contents history
     ++ [mkContent "user" [TextPart msgWithContext]])%list in
  response <- generateContent contents ;;
  Ret (match response with Some t => t | None => EmptyString end).

(** One output of the image interaction. *)
Record output : Type := mkOutput {
  out_type : string;
  out_data : string;
  out_mime_type : string
}.

Variable interactionsCreate :
  string -> option (string * string) -> result (list output).

(** [generateImageTool]: the image's data and MIME type. *)
Definition generateImageTool (prompt : string)
  (anchorImage : option (string * string)) : result (string * string) :=
  let anchor :=
    match anchorImage with
    | Some (data, mimeType) =>
        if is_empty data then None else Some (data, or_png mimeType)
    | None => None
    end in
  outputs <- interactionsCreate prompt anchor ;;
  match
    find (fun o => String.eqb (out_type o) "image" && negb (is_empty (out_data o)))
         outputs
  with
  | None => Throw "No image was returned by the model."
  | Some img => Ret (out_data img, or_png (out_mime_type img))
  end.

End Client.

End Gemini.

(** The stream of gemini.js yields at most one chunk, a text, and fails
    only before it has yielded anything. *)
Lemma streamChat_shape (systemInstruction : string)
  (generateContent : list Gemini.content -> result (option string))
  (history : list Gemini.turn) (newMessage : string)
  (imageParts : list Gemini.image_part) (useCodeExecution : bool) :
  let '(chunks, failure) :=
    Gemini.streamChat systemInstruction generateContent history newMessage
      imageParts useCodeExecution in
  (List.length chunks <= 1)%nat
  /\ (forall c, In c chunks -> exists t, c = Gemini.TextChunk t)
  /\ (failure <> None -> chunks = []).
Proof.
  unfold Gemini.streamChat. destruct (generateContent _) as [[t|]|m]; simpl.
  - destruct (is_empty t); simpl; repeat split; try lia; try tauto.
    intros c [<-|[]]. eauto.
  - repeat split; try lia; tauto.
  - repeat split; try lia; tauto.
Qed.

(** ** components/Chat.js: the component's state and its attachments *)

Module Chat.

Record image : Type := mkImage {
  img_data : string;
  img_mimeType : string;
  img_name : string
}.

Record JsonContext : Type := mkJsonContext {
  json_name : string;
  bytes : nat
}.

(** A dropped or selected file: its name and MIME type, the text
    [readAsText] yields and the base64 body [readAsDataURL] yields. *)
Record File : Type := mkFile {
  file_name : string;
  file_type : string;
  file_text : string;
  file_base64 : string
}.

Record session : Type := mkSession {
  session_id : string;
  agent : string;
  session_title : string;
  createdAt : string;
  messageCount : nat
}.

Notation "s |> f" := (f s) (at level 52, left associativity, only parsing).

Section Component.

Context {num : Type} `{JSNum num} (host : Host num).

(** services/csvTools.js is not among the sources.  The attachment
    handlers only store what its functions return. *)
Variable Rows : Type.
Variable parseCsvToRows : string -> Rows * list string.
Variable enrichWithEngagement : Rows -> list string -> Rows * list string.
Variable computeDatasetSummary : Rows -> list string -> string.
Variable buildSlimCsv : Rows -> list string -> string.

(** [summarizeChannelJson] builds the summary paragraph that is pasted
    into the prompt.  No decision of the component reads that text (which
    uses characters outside Latin-1), so it is kept as an arbitrary
    function of the parsed file: what is proved holds for any summary. *)
Variable summarizeChannelJson : json num -> string.

(** A chart attached to a message. *)
Inductive chart : Type :=
| MetricChart (metric : option string) (data : list (point (num := num)))
| VideoCard (title thumbnailUrl url : @value num).

Inductive tool_result : Type :=
| PlotResult (r : plot_result (num := num))
| StatsResult (r : stats_result (num := num))
| PlayResult (r : play_result (num := num)).

Record toolCall : Type := mkToolCall {
  tool_name : string;
  tool_args : string * string;
  tool_outcome : tool_result
}.

Record message : Type := mkMessage {
  msg_id : string;
  role : string;
  content : string;
  timestamp : string;
  msg_images : option (list image);
  csvName : option string;
  parts : option (list part);
  charts : option (list chart);
  toolCalls : option (list toolCall);
  grounding : option string
}.

Record state : Type := mkState {
  sessions : list session;
  activeSessionId : option string;
  messages : list message;
  input : string;
  images : list image;
  csvContext : option CsvContext;
  jsonContext : option JsonContext;
  channelJson : @value num;
  channelJsonSummary : string;
  jsonError : string;
  sessionCsvRows : option Rows;
  sessionCsvHeaders : option (list string);
  csvDataSummary : option string;
  sessionSlimCsv : option string;
  streaming : bool;
  dragOver : bool;
  abortRef : bool;
  justCreatedSessionRef : bool
}.

Definition set_sessions (v : list session) (s : state) : state :=
  mkState v (activeSessionId s) (messages s) (input s) (images s)
    (csvContext s) (jsonContext s) (channelJson s) (channelJsonSummary s)
    (jsonError s) (sessionCsvRows s) (sessionCsvHeaders s)
    (csvDataSummary s) (sessionSlimCsv s) (streaming s) (dragOver s)
    (abortRef s) (justCreatedSessionRef s).

Definition set_activeSessionId (v : option string) (s : state) : state :=
  mkState (sessions s) v (messages s) (input s) (images s) (csvContext s)
    (jsonContext s) (channelJson s) (channelJsonSummary s) (jsonError s)
    (sessionCsvRows s) (sessionCsvHeaders s) (csvDataSummary s)
    (sessionSlimCsv s) (streaming s) (dragOver s) (abortRef s)
    (justCreatedSessionRef s).

Definition set_messages (v : list message) (s : state) : state :=
  mkState (sessions s) (activeSessionId s) v (input s) (images s)
    (csvContext s) (jsonContext s) (channelJson s) (channelJsonSummary s)
    (jsonError s) (sessionCsvRows s) (sessionCsvHeaders s)
    (csvDataSummary s) (sessionSlimCsv s) (streaming s) (dragOver s)
    (abortRef s) (justCreatedSessionRef s).

Definition set_input (v : string) (s : state) : state :=
  mkState (sessions s) (activeSessionId s) (messages s) v (images s)
    (csvContext s) (jsonContext s) (channelJson s) (channelJsonSummary s)
    (jsonError s) (sessionCsvRows s) (sessionCsvHeaders s)
    (csvDataSummary s) (sessionSlimCsv s) (streaming s) (dragOver s)
    (abortRef s) (justCreatedSessionRef s).

Definition set_images (v : list image) (s : state) : state :=
  mkState (sessions s) (activeSessionId s) (messages s) (input s) v
    (csvContext s) (jsonContext s) (channelJson s) (channelJsonSummary s)
    (jsonError s) (sessionCsvRows s) (sessionCsvHeaders s)
    (csvDataSummary s) (sessionSlimCsv s) (streaming s) (dragOver s)
    (abortRef s) (justCreatedSessionRef s).

Definition set_csvContext (v : option CsvContext) (s : state) : state :=
  mkState (sessions s) (activeSessionId s) (messages s) (input s) (images s)
    v (jsonContext s) (channelJson s) (channelJsonSummary s) (jsonError s)
    (sessionCsvRows s) (sessionCsvHeaders s) (csvDataSummary s)
    (sessionSlimCsv s) (streaming s) (dragOver s) (abortRef s)
    (justCreatedSessionRef s).

Definition set_jsonContext (v : option JsonContext) (s : state) : state :=
  mkState (sessions s) (activeSessionId s) (messages s) (input s) (images s)
    (csvContext s) v (channelJson s) (channelJsonSummary s) (jsonError s)
    (sessionCsvRows s) (sessionCsvHeaders s) (csvDataSummary s)
    (sessionSlimCsv s) (streaming s) (dragOver s) (abortRef s)
    (justCreatedSessionRef s).

Definition set_channelJson (v : @value num) (s : state) : state :=
  mkState (sessions s) (activeSessionId s) (messages s) (input s) (images s)
    (csvContext s) (jsonContext s) v (channelJsonSummary s) (jsonError s)
    (sessionCsvRows s) (sessionCsvHeaders s) (csvDataSummary s)
    (sessionSlimCsv s) (streaming s) (dragOver s) (abortRef s)
    (justCreatedSessionRef s).

Definition set_channelJsonSummary (v : string) (s : state) : state :=
  mkState (sessions s) (activeSessionId s) (messages s) (input s) (images s)
    (csvContext s) (jsonContext s) (channelJson s) v (jsonError s)
    (sessionCsvRows s) (sessionCsvHeaders s) (csvDataSummary s)
    (sessionSlimCsv s) (streaming s) (dragOver s) (abortRef s)
    (justCreatedSessionRef s).

Definition set_jsonError (v : string) (s : state) : state :=
  mkState (sessions s) (activeSessionId s) (messages s) (input s) (images s)
    (csvContext s) (jsonContext s) (channelJson s) (channelJsonSummary s) v
    (sessionCsvRows s) (sessionCsvHeaders s) (csvDataSummary s)
    (sessionSlimCsv s) (streaming s) (dragOver s) (abortRef s)
    (justCreatedSessionRef s).

Definition set_sessionCsvRows (v : option Rows) (s : state) : state :=
  mkState (sessions s) (activeSessionId s) (messages s) (input s) (images s)
    (csvContext s) (jsonContext s) (channelJson s) (channelJsonSummary s)
    (jsonError s) v (sessionCsvHeaders s) (csvDataSummary s)
    (sessionSlimCsv s) (streaming s) (dragOver s) (abortRef s)
    (justCreatedSessionRef s).

Definition set_sessionCsvHeaders (v : option (list string)) (s : state) : state :=
  mkState (sessions s) (activeSessionId s) (messages s) (input s) (images s)
    (csvContext s) (jsonContext s) (channelJson s) (channelJsonSummary s)
    (jsonError s) (sessionCsvRows s) v (csvDataSummary s) (sessionSlimCsv s)
    (streaming s) (dragOver s) (abortRef s) (justCreatedSessionRef s).

Definition set_csvDataSummary (v : option string) (s : state) : state :=
  mkState (sessions s) (activeSessionId s) (messages s) (input s) (images s)
    (csvContext s) (jsonContext s) (channelJson s) (channelJsonSummary s)
    (jsonError s) (sessionCsvRows s) (sessionCsvHeaders s) v
    (sessionSlimCsv s) (streaming s) (dragOver s) (abortRef s)
    (justCreatedSessionRef s).

Definition set_sessionSlimCsv (v : option string) (s : state) : state :=
  mkState (sessions s) (activeSessionId s) (messages s) (input s) (images s)
    (csvContext s) (jsonContext s) (channelJson s) (channelJsonSummary s)
    (jsonError s) (sessionCsvRows s) (sessionCsvHeaders s)
    (csvDataSummary s) v (streaming s) (dragOver s) (abortRef s)
    (justCreatedSessionRef s).

Definition set_streaming (v : bool) (s : state) : state :=
  mkState (sessions s) (activeSessionId s) (messages s) (input s) (images s)
    (csvContext s) (jsonContext s) (channelJson s) (channelJsonSummary s)
    (jsonError s) (sessionCsvRows s) (sessionCsvHeaders s)
    (csvDataSummary s) (sessionSlimCsv s) v (dragOver s) (abortRef s)
    (justCreatedSessionRef s).

Definition set_dragOver (v : bool) (s : state) : state :=
  mkState (sessions s) (activeSessionId s) (messages s) (input s) (images s)
    (csvContext s) (jsonContext s) (channelJson s) (channelJsonSummary s)
    (jsonError s) (sessionCsvRows s) (sessionCsvHeaders s)
    (csvDataSummary s) (sessionSlimCsv s) (streaming s) v (abortRef s)
    (justCreatedSessionRef s).

Definition set_abortRef (v : bool) (s : state) : state :=
  mkState (sessions s) (activeSessionId s) (messages s) (input s) (images s)
    (csvContext s) (jsonContext s) (channelJson s) (channelJsonSummary s)
    (jsonError s) (sessionCsvRows s) (sessionCsvHeaders s)
    (csvDataSummary s) (sessionSlimCsv s) (streaming s) (dragOver s) v
    (justCreatedSessionRef s).

Definition set_justCreatedSessionRef (v : bool) (s : state) : state :=
  mkState (sessions s) (activeSessionId s) (messages s) (input s) (images s)
    (csvContext s) (jsonContext s) (channelJson s) (channelJsonSummary s)
    (jsonError s) (sessionCsvRows s) (sessionCsvHeaders s)
    (csvDataSummary s) (sessionSlimCsv s) (streaming s) (dragOver s)
    (abortRef s) v.

Definition initial_state : state :=
  mkState [] None [] EmptyString [] None None None EmptyString EmptyString
          None None None None false false false false.

Definition is_csv (f : File) : bool :=
  endsWith (file_name f) ".csv" || String.eqb (file_type f) "text/csv".

Definition is_json (f : File) : bool :=
  endsWith (file_name f) ".json" || String.eqb (file_type f) "application/json".

Definition is_image (f : File) : bool := startsWith (file_type f) "image/".

Definition named (name : string) (c : CsvContext) : CsvContext :=
  mkCsv name (headers c) (rowCount c) (preview c) (base64 c) (truncated c).

(** The CSV branch of [handleDrop] and [handleFileSelect]. *)
Definition attachCsv (f : File) (st : state) : state :=
  let text := file_text f in
  match parseCSV text with
  | Some parsed =>
      let raw := parseCsvToRows text in
      let enriched := enrichWithEngagement (fst raw) (snd raw) in
      let rows := fst enriched in
      let hdrs := snd enriched in
      st |> set_csvContext (Some (named (file_name f) parsed))
         |> set_jsonContext None
         |> set_channelJson None
         |> set_channelJsonSummary EmptyString
         |> set_jsonError EmptyString
         |> set_sessionCsvHeaders (Some hdrs)
         |> set_sessionCsvRows (Some rows)
         |> set_csvDataSummary (Some (computeDatasetSummary rows hdrs))
         |> set_sessionSlimCsv (Some (buildSlimCsv rows hdrs))
  | None => st
  end.

(** [err?.message || 'parse failed'] *)
Definition parse_failure (message : string) : string :=
  if is_empty message then "parse failed" else message.

(** The JSON branch: the [try] block when the text parses, the [catch]
    block when it does not. *)
Definition attachJson (f : File) (st : state) : state :=
  let text := file_text f in
  let chip := mkJsonContext (file_name f) (String.length text) in
  match JSON_parse host text with
  | Ret obj =>
      st |> set_jsonContext (Some chip)
         |> set_channelJson (Some obj)
         |> set_channelJsonSummary (summarizeChannelJson obj)
         |> set_jsonError EmptyString
         |> set_csvContext None
         |> set_sessionCsvRows None
         |> set_sessionCsvHeaders None
         |> set_csvDataSummary None
         |> set_sessionSlimCsv None
  | Throw message =>
      st |> set_jsonContext (Some chip)
         |> set_channelJson None
         |> set_channelJsonSummary EmptyString
         |> set_jsonError ("Invalid JSON: " ++ parse_failure message)
  end.

(** The image branch. *)
Definition attachImages (fs : list File) (st : state) : state :=
  let newImages :=
    map (fun f => mkImage (file_base64 f) (file_type f) (file_name f)) fs in
  st |> set_images (images st ++ newImages)%list.

(** The three branches in the order both handlers run them. *)
Definition attach (files : list File) (st : state) : state :=
  let st1 := match filter is_csv files with
             | f :: _ => attachCsv f st
             | [] => st
             end in
  let st2 := match filter is_json files with
             | f :: _ => attachJson f st1
             | [] => st1
             end in
  match filter is_image files with
  | [] => st2
  | imgs => attachImages imgs st2
  end.

Definition handleDrop (st : state) (files : list File) : state :=
  attach files (st |> set_dragOver false).

(** [handleFileSelect] repeats the body of [handleDrop] on the files of
    the file picker. *)
Definition handleFileSelect (st : state) (files : list File) : state :=
  attach files st.

(** *** Routing *)

Definition space_star : re := Star (Cls is_space).

(** [/\bgenerateimage\b/i], [/^\s*generateimage\s*:/i] and
    [/\b(generate an image|make an image|create an image|image generation)\b/i] *)
Definition generateimage_word : re := seqs [WordB; lit "generateimage"; WordB].
Definition generateimage_prefix : re :=
  seqs [Bol; space_star; lit "generateimage"; space_star; Chr ":"].
Definition image_phrases : re :=
  seqs [WordB;
        words ["generate an image"; "make an image"; "create an image";
               "image generation"];
        WordB].

Definition plural (w : string) : re := Seq (lit w) (Opt (Chr "s")).

(** [(views?|likes?|comments?)] and the same with [duration] *)
Definition metric_words : re := alts [plural "view"; plural "like"; plural "comment"].
Definition field_words : re :=
  alts [plural "view"; plural "like"; plural "comment"; lit "duration"].

Definition any_text : re := Star Dot.

(** [/\bplot_metric_vs_time\b/i] and
    [/\b(plot|graph)\b.*\b(views?|likes?|comments?)\b.*\b(time)\b/i] *)
Definition plot_tool_word : re := seqs [WordB; lit "plot_metric_vs_time"; WordB].
Definition plot_phrase : re :=
  seqs [WordB; Grp 1 (words ["plot"; "graph"]); WordB; any_text;
        WordB; Grp 2 metric_words; WordB; any_text;
        WordB; Grp 3 (lit "time"); WordB].

(** [/\bcompute_stats_json\b/i] and
    [/\b(stats?|statistics?|average|mean|median|distribution)\b.*\b(views?|likes?|comments?|duration)\b/i] *)
Definition stats_tool_word : re := seqs [WordB; lit "compute_stats_json"; WordB].
Definition stats_phrase : re :=
  seqs [WordB;
        Grp 1 (alts [plural "stat"; plural "statistic"; lit "average";
                     lit "mean"; lit "median"; lit "distribution"]);
        WordB; any_text; WordB; Grp 2 field_words; WordB].

(** [/\bplay_video\b/i] and [/\b(play|open)\b.*\b(video)\b/i] *)
Definition play_tool_word : re := seqs [WordB; lit "play_video"; WordB].
Definition play_phrase : re :=
  seqs [WordB; Grp 1 (words ["play"; "open"]); WordB; any_text;
        WordB; Grp 2 (lit "video"); WordB].

(** [PYTHON_ONLY_KEYWORDS] *)
Definition PYTHON_ONLY_KEYWORDS : re :=
  seqs [WordB;
        alts [lit "regression"; lit "scatter"; lit "histogram"; lit "seaborn";
              lit "matplotlib"; lit "numpy";
              seqs [lit "time"; Opt Dot; lit "series"];
              lit "heatmap";
              seqs [lit "box"; Opt Dot; lit "plot"];
              lit "violin"; lit "distribut";
              seqs [lit "linear"; Opt Dot; lit "model"];
              lit "logistic"; lit "forecast";
              seqs [lit "trend"; Opt Dot; lit "line"]];
        WordB].

Definition wantsGenerateImage (text : string) : bool :=
  test true generateimage_word text
  || test true generateimage_prefix text
  || test true image_phrases text.

Definition wantsMetricPlot (text : string) : bool :=
  test true plot_tool_word text || test true plot_phrase text.

Definition wantsStatsJson (text : string) : bool :=
  test true stats_tool_word text || test true stats_phrase text.

Definition wantsPlayVideo (text : string) : bool :=
  test true play_tool_word text || test true play_phrase text.

Definition is_some {A : Type} (o : option A) : bool :=
  match o with Some _ => true | None => false end.

Definition wantPythonOnly (text : string) : bool :=
  test true PYTHON_ONLY_KEYWORDS text.

Definition wantCode (st : state) (text : string) : bool :=
  test true Gemini.CODE_KEYWORDS text && negb (is_some (sessionCsvRows st)).

Definition needsBase64 (st : state) (text : string) : bool :=
  is_some (csvContext st) && wantPythonOnly text.

Definition useTools (st : state) (text : string) : bool :=
  is_some (sessionCsvRows st) && negb (wantPythonOnly text)
  && negb (wantCode st text) && negb (is_some (csvContext st)).

Definition useCodeExecution (st : state) (text : string) : bool :=
  wantPythonOnly text || wantCode st text.

(** *** The prompt

    (The sentence that introduces the Python pattern has an em dash in the
    source, a character outside Latin-1; a hyphen stands for it.) *)

Definition or_empty (o : option string) : string :=
  match o with Some s => s | None => EmptyString end.

Definition slimCsvBlock (st : state) : string :=
  match sessionSlimCsv st with
  | Some slim =>
      if is_empty slim then EmptyString
      else nl ++ nl ++ "Full dataset (key columns):" ++ nl ++ "```csv" ++ nl
           ++ slim ++ nl ++ "```"
  | None => EmptyString
  end.

Definition csv_heading (c : CsvContext) : string :=
  "[CSV File: " ++ quoted (csv_name c) ++ " | " ++ nat_to_string (rowCount c)
  ++ " rows | Columns: " ++ join ", " (headers c) ++ "]".

Definition csvPrefix (st : state) (text : string) : string :=
  let sessionSummary := or_empty (csvDataSummary st) in
  match csvContext st with
  | Some capturedCsv =>
      if needsBase64 st text then
        csv_heading capturedCsv ++ nl ++ nl
        ++ sessionSummary ++ slimCsvBlock st ++ nl ++ nl
        ++ "IMPORTANT - to load the full data in Python use this exact pattern:"
        ++ nl ++ "```python" ++ nl
        ++ "import pandas as pd, io, base64" ++ nl
        ++ "df = pd.read_csv(io.BytesIO(base64.b64decode("
        ++ quoted (base64 capturedCsv) ++ ")))" ++ nl
        ++ "```" ++ nl ++ nl ++ "---" ++ nl ++ nl
      else
        csv_heading capturedCsv ++ nl ++ nl
        ++ sessionSummary ++ slimCsvBlock st ++ nl ++ nl
        ++ "---" ++ nl ++ nl
  | None =>
      if is_empty sessionSummary then EmptyString
      else
        "[CSV columns: "
        ++ match sessionCsvHeaders st with
           | Some hs => join ", " hs
           | None => "undefined"
           end
        ++ "]" ++ nl ++ nl ++ sessionSummary ++ nl ++ nl ++ "---" ++ nl ++ nl
  end.

(** The number of videos named in the JSON heading. *)
Definition video_count (channel : @value num) : string :=
  match channel with
  | Some (JObj o) =>
      match assoc "videos" o with
      | Some (JArr l) => nat_to_string (List.length l)
      | _ =>
          match assoc "items" o with
          | Some (JArr l) => nat_to_string (List.length l)
          | _ => "unknown"
          end
      end
  | _ => "unknown"
  end.

Definition jsonPrefix (st : state) : string :=
  match jsonContext st with
  | Some capturedJson =>
      if truthy (channelJson st) then
        "[YouTube Channel JSON: " ++ quoted (json_name capturedJson) ++ " | "
        ++ video_count (channelJson st) ++ " videos]" ++ nl ++ nl
        ++ channelJsonSummary st ++ nl ++ nl ++ "---" ++ nl ++ nl
      else if negb (is_empty (jsonError st)) then
        "[YouTube Channel JSON: " ++ quoted (json_name capturedJson) ++ "]"
        ++ nl ++ nl ++ jsonError st ++ nl ++ nl ++ "---" ++ nl ++ nl
      else EmptyString
  | None => EmptyString
  end.

Definition no_images (st : state) : bool :=
  match images st with [] => true | _ :: _ => false end.

(** [userContent]: what is shown in the bubble and stored. *)
Definition userContent (st : state) (text : string) : string :=
  if negb (is_empty text) then text
  else if negb (no_images st) then "(Image)"
  else if is_some (csvContext st) then "(CSV attached)"
  else "(JSON attached)".

(** [promptForGemini]: what is sent to the model. *)
Definition promptForGemini (st : state) (text : string) : string :=
  jsonPrefix st ++ csvPrefix st text
  ++ (if negb (is_empty text) then text
      else if negb (no_images st) then "What do you see in this image?"
      else if is_some (jsonContext st)
           then "Please analyze this YouTube channel JSON."
           else "Please analyze this CSV data.").

(** *** The services and the environment of one send *)

(** What [handleSend] asks of the world: the props of the component, the
    clock readings it turns into ids and timestamps, the persistence and
    model services, and the moment the user presses Stop (after that many
    chunks were delivered; [None] when Stop is not pressed). *)
Record Env : Type := mkEnv {
  username : string;
  firstName : string;
  lastName : string;
  chatTitle : string;
  sessionTime : string;
  userStamp : string;
  userTime : string;
  assistantStamp : string;
  assistantTime : string;
  createSession : string -> string -> string -> string;
  generateImageTool : string -> option (string * string) -> result (string * string);
  chatWithCsvTools :
    list Gemini.turn -> string -> option (list string)
    -> result (string * list chart * list toolCall);
  streamChat :
    list Gemini.turn -> string -> list Gemini.image_part -> bool
    -> list Gemini.chunk * option string;
  stopAfter : option nat
}.

(** The service calls a send makes, in order. *)
Inductive call : Type :=
| CreateSession (user agent_name title : string)
| SaveMessage (sessionId role_name text : string)
    (imgs : option (list image)) (saved_charts : option (list chart))
    (saved_calls : option (list toolCall))
| CallGenerateImage (prompt : string) (anchor : option (string * string))
| CallChatWithCsvTools (history : list Gemini.turn) (prompt : string)
    (csvHeaders : option (list string))
| CallStreamChat (history : list Gemini.turn) (prompt : string)
    (imageParts : list Gemini.image_part) (codeExecution : bool).

(** [xs.length ? xs : null] *)
Definition non_empty {A : Type} (l : list A) : option (list A) :=
  match l with [] => None | _ :: _ => Some l end.

Definition set_content (v : string) (m : message) : message :=
  mkMessage (msg_id m) (role m) v (timestamp m) (msg_images m) (csvName m)
            (parts m) (charts m) (toolCalls m) (grounding m).

Definition set_msg_images (v : option (list image)) (m : message) : message :=
  mkMessage (msg_id m) (role m) (content m) (timestamp m) v (csvName m)
            (parts m) (charts m) (toolCalls m) (grounding m).

Definition set_parts (v : option (list part)) (m : message) : message :=
  mkMessage (msg_id m) (role m) (content m) (timestamp m) (msg_images m)
            (csvName m) v (charts m) (toolCalls m) (grounding m).

Definition set_charts (v : option (list chart)) (m : message) : message :=
  mkMessage (msg_id m) (role m) (content m) (timestamp m) (msg_images m)
            (csvName m) (parts m) v (toolCalls m) (grounding m).

Definition set_toolCalls (v : option (list toolCall)) (m : message) : message :=
  mkMessage (msg_id m) (role m) (content m) (timestamp m) (msg_images m)
            (csvName m) (parts m) (charts m) v (grounding m).

Definition set_grounding (v : option string) (m : message) : message :=
  mkMessage (msg_id m) (role m) (content m) (timestamp m) (msg_images m)
            (csvName m) (parts m) (charts m) (toolCalls m) v.

(** [m.map((msg) => (msg.id === id ? f(msg) : msg))] *)
Definition update_message (id : string) (f : message -> message)
  (msgs : list message) : list message :=
  map (fun m => if String.eqb (msg_id m) id then f m else m) msgs.

Definition update (id : string) (f : message -> message) (st : state) : state :=
  st |> set_messages (update_message id f (messages st)).

(** The empty assistant message a reply starts from. *)
Definition placeholder (env : Env) : message :=
  mkMessage ("a-" ++ assistantStamp env) "model" EmptyString
            (assistantTime env) None None None None None None.

Definition assistantId (env : Env) : string := "a-" ++ assistantStamp env.

Definition add_placeholder (env : Env) (st : state) : state :=
  st |> set_messages (messages st ++ [placeholder env])%list.

(** *** The guard and the lazily created session *)

Definition no_session (st : state) : bool :=
  match activeSessionId st with
  | None => true
  | Some id => is_empty id
  end.

(** The condition of the first [return] of [handleSend]. *)
Definition ignored (st : state) : bool :=
  (is_empty (trim (input st)) && no_images st
   && negb (is_some (csvContext st)) && negb (is_some (jsonContext st)))
  || streaming st
  || no_session st.

Definition open_session (env : Env) (st : state) : string * state * list call :=
  let current := or_empty (activeSessionId st) in
  if String.eqb current "new" then
    let id := createSession env (username env) "lisa" (chatTitle env) in
    (id,
     st |> set_justCreatedSessionRef true
        |> set_activeSessionId (Some id)
        |> set_sessions
             (mkSession id "lisa" (chatTitle env) (sessionTime env) 0 :: sessions st),
     [CreateSession (username env) "lisa" (chatTitle env)])
  else (current, st, []).

(** [csvName: capturedCsv?.name || null] *)
Definition csv_name_of (st : state) : option string :=
  match csvContext st with
  | Some c => if is_empty (csv_name c) then None else Some (csv_name c)
  | None => None
  end.

Definition userMsg (env : Env) (st : state) (text : string) : message :=
  mkMessage ("u-" ++ userStamp env) "user" (userContent st text) (userTime env)
            (Some (images st)) (csv_name_of st) None None None None.

(** From the user message appended to the bubble list to the first
    [saveMessage]. *)
Definition begin_send (env : Env) (captured st : state) (sessionId text : string)
  : state * list call :=
  (st |> set_messages (messages st ++ [userMsg env captured text])%list
      |> set_input EmptyString
      |> set_images []
      |> set_csvContext None
      |> set_jsonContext None
      |> set_streaming true,
   [SaveMessage sessionId "user" (userContent captured text)
                (non_empty (images captured)) None None]).

(** *** The image path *)

Definition or_default (dflt s : string) : string :=
  if is_empty s then dflt else s.

Definition image_prompt (text : string) : string :=
  or_default "Generate an image."
    (trim (Regex.replace true generateimage_prefix EmptyString text)).

Definition image_caption (prompt : string) : string :=
  if is_empty prompt then "Generated image."
  else "Generated image for: " ++ quoted prompt.

Definition image_path (env : Env) (captured st : state) (sessionId text : string)
  : state * list call :=
  let st := add_placeholder env st in
  let prompt := image_prompt text in
  let anchor :=
    match images captured with
    | i :: _ => Some (img_data i, img_mimeType i)
    | [] => None
    end in
  let asked := CallGenerateImage prompt anchor in
  match generateImageTool env prompt anchor with
  | Ret (data, mimeType) =>
      let modelImages := [mkImage data mimeType "generated-image"] in
      (st |> update (assistantId env)
               (fun m => m |> set_content (image_caption prompt)
                           |> set_msg_images (Some modelImages))
          |> set_streaming false,
       [asked;
        SaveMessage sessionId "model" (image_caption prompt) (Some modelImages)
                    None None])
  | Throw message =>
      let errText := "Error: " ++ or_default "Image generation failed" message in
      (st |> update (assistantId env) (set_content errText)
          |> set_streaming false,
       [asked; SaveMessage sessionId "model" errText None None None])
  end.

(** *** The channel-JSON tools path *)

Definition name_chars : re :=
  Plus (Cls (fun c => is_alpha c || (code c =? 95)%nat)).

(** [/plot_metric_vs_time\s*:\s*([a-zA-Z_]+)/i] and its two siblings *)
Definition tool_argument (tool : string) (arg : re) : re :=
  seqs [lit tool; space_star; Chr ":"; space_star; Grp 1 arg].

Definition metric_word : re := seqs [WordB; Grp 1 metric_words; WordB].
Definition field_word : re := seqs [WordB; Grp 1 field_words; WordB].

(** [m[1] || m[0]] *)
Definition first_group (m : found) : string :=
  match group 1 m with
  | Some g => if is_empty g then str (whole m) else g
  | None => str (whole m)
  end.

(** [a || b] for two matches *)
Definition or_match (a b : option found) : option found :=
  match a with Some _ => a | None => b end.

Definition metricKey (text : string) : string :=
  let metricMatch :=
    or_match (exec true (tool_argument "plot_metric_vs_time" name_chars) text)
             (exec true metric_word text) in
  let metricRaw :=
    match metricMatch with Some m => first_group m | None => "view_count" end in
  if test true (lit "like") metricRaw then "like_count"
  else if test true (lit "comment") metricRaw then "comment_count"
  else "view_count".

Definition fieldKey (text : string) : string :=
  let fieldMatch :=
    or_match (exec true (tool_argument "compute_stats_json" name_chars) text)
             (exec true field_word text) in
  let raw :=
    match fieldMatch with Some m => first_group m | None => "view_count" end in
  if test true (lit "like") raw then "like_count"
  else if test true (lit "comment") raw then "comment_count"
  else if test true (lit "duration") raw then "duration"
  else "view_count".

(** [/play_video\s*:\s*(.+)$/i] *)
Definition play_argument : re :=
  seqs [lit "play_video"; space_star; Chr ":"; space_star; Grp 1 (Plus Dot); Eol].

Definition which_video (text : string) : string :=
  match exec true play_argument text with
  | Some m => trim (or_empty (group 1 m))
  | None => text
  end.

Definition stats_text (key : string) (s : stats (num := num)) : string :=
  "Stats for " ++ key ++ " (n=" ++ nat_to_string (count s)
  ++ "): mean=" ++ toFixed2 host (mean s)
  ++ ", median=" ++ toFixed2 host (median s)
  ++ ", std=" ++ toFixed2 host (std s)
  ++ ", min=" ++ NumberToString host (min s)
  ++ ", max=" ++ NumberToString host (max s) ++ ".".

(** The [try] block of the tools path: the text of the reply, its charts
    and the record of the tool call. *)
Definition tool_reply (captured : state) (text : string)
  : result (string * list chart * list toolCall) :=
  if wantsMetricPlot text then
    let key := metricKey text in
    chart <- plotMetricVsTimeTool host (channelJson captured) (Some key) ;;
    let calls := [mkToolCall "plot_metric_vs_time" ("metric", key) (PlotResult chart)] in
    match chart with
    | PlotChart m data =>
        Ret ("Plotted " ++ key ++ " vs time for "
             ++ nat_to_string (List.length data) ++ " videos.",
             [MetricChart m data], calls)
    | PlotError e => Ret (or_default "Could not plot metric vs time." e, [], calls)
    end
  else if wantsStatsJson text then
    let key := fieldKey text in
    st <- computeStatsJsonTool host (channelJson captured) (Some key) ;;
    let calls := [mkToolCall "compute_stats_json" ("field", key) (StatsResult st)] in
    match st with
    | Stats s' => Ret (stats_text key s', [], calls)
    | StatsError e => Ret (e, [], calls)
    end
  else if wantsPlayVideo text then
    let which := which_video text in
    info <- playVideoTool host (channelJson captured) which ;;
    let calls := [mkToolCall "play_video" ("which", which) (PlayResult info)] in
    match info with
    | PlayInfo i =>
        t <- string_of_value host (info_title i) ;;
        Ret ("Opening video: " ++ t,
             [VideoCard (info_title i) (info_thumbnailUrl i) (info_url i)], calls)
    | PlayError e => Ret (e, [], calls)
    end
  else Ret (EmptyString, [], []).

Definition json_tools_path (env : Env) (captured st : state)
  (sessionId text : string) : state * list call :=
  let st := add_placeholder env st in
  match tool_reply captured text with
  | Ret (contentText, made_charts, made_calls) =>
      (st |> update (assistantId env)
               (fun m => m |> set_content contentText
                           |> set_charts (non_empty made_charts)
                           |> set_toolCalls (non_empty made_calls))
          |> set_streaming false,
       [SaveMessage sessionId "model" contentText None
                    (non_empty made_charts) (non_empty made_calls)])
  | Throw message =>
      let errText := "Error: " ++ or_default "Tool failed" message in
      (st |> update (assistantId env) (set_content errText)
          |> set_streaming false,
       [SaveMessage sessionId "model" errText None None None])
  end.

(** *** The chat path: client tools or the stream *)

(** [messageText]: the text of a message's parts, or its content. *)
Definition part_texts (ps : list part) : list string :=
  flat_map (fun p => match p with PartText t => [t] | _ => [] end) ps.

Definition messageText (m : message) : string :=
  match parts m with
  | Some ps => join nl (part_texts ps)
  | None => content m
  end.

Definition is_turn (m : message) : bool :=
  String.eqb (role m) "user" || String.eqb (role m) "model".

Definition history_of (msgs : list message) : list Gemini.turn :=
  map (fun m =>
         Gemini.mkTurn (role m)
           (if is_empty (content m) then messageText m else content m))
      (filter is_turn msgs).

Definition userHeader (env : Env) : string :=
  let fullName := trim (trim (firstName env) ++ " " ++ trim (lastName env)) in
  if is_empty fullName then "User: @" ++ username env
  else "User: " ++ fullName ++ " (@" ++ username env ++ ")".

Definition historyWithUserHeader (env : Env) (captured : state)
  : list Gemini.turn :=
  Gemini.mkTurn "user" (userHeader env) :: history_of (messages captured).

(** What the streaming loop has gathered so far, and the bubbles. *)
Record gathered : Type := mkGathered {
  fullContent : string;
  groundingData : option string;
  structuredParts : option (list part);
  bubbles : list message
}.

(** The body of the [for await] loop for one chunk. *)
Definition on_chunk (id : string) (c : Gemini.chunk) (g : gathered) : gathered :=
  match c with
  | Gemini.TextChunk t =>
      let full := fullContent g ++ t in
      mkGathered full (groundingData g) (structuredParts g)
                 (update_message id (set_content full) (bubbles g))
  | Gemini.FullResponse ps =>
      mkGathered (fullContent g) (groundingData g) (Some ps)
                 (update_message id
                    (fun m => m |> set_content EmptyString |> set_parts (Some ps))
                    (bubbles g))
  | Gemini.Grounding d =>
      mkGathered (fullContent g) (Some d) (structuredParts g) (bubbles g)
  end.

(** What happens while the reply streams: a chunk arrives, or the user
    presses Stop ([handleStop] sets the flag). *)
Inductive event : Type :=
| Arrives (c : Gemini.chunk)
| Stop.

(** The loop: [if (abortRef.current) break;] comes first in its body.  The
    result says whether the loop was left by [break] and what the flag is. *)
Fixpoint stream_loop (id : string) (events : list event) (abort : bool)
  (g : gathered) : gathered * bool * bool :=
  match events with
  | [] => (g, false, abort)
  | Stop :: rest => stream_loop id rest true g
  | Arrives c :: rest =>
      if abort then (g, true, abort)
      else stream_loop id rest abort (on_chunk id c g)
  end.

(** [catch (err)] of the chat path *)
Definition on_error (id : string) (message : string) (g : gathered) : gathered :=
  let errText := "Error: " ++ message in
  mkGathered errText (groundingData g) (structuredParts g)
             (update_message id (set_content errText) (bubbles g)).

(** The loop and its [catch]: the generator's error surfaces when the loop
    asks for the chunk after the last one, which a [break] never does. *)
Definition stream_reply (id : string) (events : list event)
  (failure : option string) (g : gathered) : gathered * bool :=
  let '(g', broke, abort) := stream_loop id events false g in
  match failure with
  | Some message => if broke then (g', abort) else (on_error id message g', abort)
  | None => (g', abort)
  end.

(** The events of a stream whose user presses Stop after [n] chunks. *)
Definition schedule (chunks : list Gemini.chunk) (stop : option nat) : list event :=
  match stop with
  | None => map Arrives chunks
  | Some n =>
      (map Arrives (firstn n chunks) ++ Stop :: map Arrives (skipn n chunks))%list
  end.

(** [savedContent] *)
Definition savedContent (g : gathered) : string :=
  match structuredParts g with
  | Some ps => join nl (part_texts ps)
  | None => fullContent g
  end.

Definition add_messages (id : string) (s : session) : session :=
  if String.eqb (session_id s) id
  then mkSession (session_id s) (agent s) (session_title s) (createdAt s)
                 (messageCount s + 2)
  else s.

(** The end of the chat path, from the grounding update on. *)
Definition finish_chat (env : Env) (st : state) (sessionId : string)
  (g : gathered) (made_charts : list chart) (made_calls : list toolCall)
  : state * list call :=
  let msgs :=
    match groundingData g with
    | Some d => update_message (assistantId env) (set_grounding (Some d)) (bubbles g)
    | None => bubbles g
    end in
  (st |> set_messages msgs
      |> set_sessions (map (add_messages sessionId) (sessions st))
      |> set_streaming false,
   [SaveMessage sessionId "model" (savedContent g) None
                (non_empty made_charts) (non_empty made_calls)]).

Definition chat_path (env : Env) (captured st : state) (sessionId text : string)
  : state * list call :=
  let imageParts :=
    map (fun i => Gemini.mkImagePart (img_mimeType i) (img_data i)) (images captured) in
  let history := historyWithUserHeader env captured in
  let prompt := promptForGemini captured text in
  let st := add_placeholder env st |> set_abortRef false in
  let g0 := mkGathered EmptyString None None (messages st) in
  if useTools captured text then
    let asked := CallChatWithCsvTools history prompt (sessionCsvHeaders captured) in
    match chatWithCsvTools env history prompt (sessionCsvHeaders captured) with
    | Ret (answer, returnedCharts, returnedCalls) =>
        let g :=
          mkGathered answer None None
            (update_message (assistantId env)
               (fun m => m |> set_content answer
                           |> set_charts (non_empty returnedCharts)
                           |> set_toolCalls (non_empty returnedCalls))
               (messages st)) in
        let '(st', saved) := finish_chat env st sessionId g returnedCharts returnedCalls in
        (st', asked :: saved)
    | Throw message =>
        let '(st', saved) :=
          finish_chat env st sessionId (on_error (assistantId env) message g0) [] [] in
        (st', asked :: saved)
    end
  else
    let code := useCodeExecution captured text in
    let asked := CallStreamChat history prompt imageParts code in
    let '(chunks, failure) := streamChat env history prompt imageParts code in
    let '(g, abort) :=
      stream_reply (assistantId env) (schedule chunks (stopAfter env)) failure g0 in
    let '(st', saved) := finish_chat env (st |> set_abortRef abort) sessionId g [] [] in
    (st', asked :: saved).

(** *** [handleSend] *)

Definition handleSend (env : Env) (st : state) : state * list call :=
  if ignored st then (st, [])
  else
    let text := trim (input st) in
    let '(sessionId, st1, created) := open_session env st in
    let '(st2, saved) := begin_send env st st1 sessionId text in
    let '(st3, replied) :=
      if wantsGenerateImage text then image_path env st st2 sessionId text
      else if truthy (channelJson st)
              && (wantsMetricPlot text || wantsStatsJson text || wantsPlayVideo text)
      then json_tools_path env st st2 sessionId text
      else chat_path env st st2 sessionId text in
    (st3, (created ++ saved ++ replied)%list).

(** [handleStop] *)
Definition handleStop (st : state) : state := st |> set_abortRef true.

(** *** Facts: the guard of [handleSend] *)

(** The composed message is empty: no text, no image, no CSV, no JSON. *)
Definition nothing_to_send (st : state) : bool :=
  is_empty (trim (input st)) && no_images st
  && negb (is_some (csvContext st)) && negb (is_some (jsonContext st)).

(** C6.  While a send is in flight, or when there is nothing to send,
    [handleSend] returns at once: the state, and with it the message
    list, is unchanged, and no service is called. *)
Theorem handleSend_ignored_while_streaming_or_empty (env : Env) (st : state) :
  streaming st = true \/ nothing_to_send st = true ->
  handleSend env st = (st, []) /\
  List.length (messages (fst (handleSend env st))) = List.length (messages st) /\
  snd (handleSend env st) = [].
Proof.
  intros Hg.
  assert (Hi : ignored st = true).
  { unfold ignored. fold (nothing_to_send st).
    destruct Hg as [-> | ->]; [apply orb_true_iff; left; apply orb_true_r|reflexivity]. }
  unfold handleSend. rewrite Hi. repeat split; reflexivity.
Qed.

(** *** Facts: attachments and the two contexts *)

Definition at_most_one_context (st : state) : Prop :=
  csvContext st = None \/ jsonContext st = None.

Lemma attachCsv_clears_json (f : File) (st : state) :
  parseCSV (file_text f) <> None -> jsonContext (attachCsv f st) = None.
Proof.
  unfold attachCsv. destruct (parseCSV (file_text f)); [reflexivity|congruence].
Qed.

Lemma attachJson_parsed_clears_csv (f : File) (st : state) (obj : json num) :
  JSON_parse host (file_text f) = Ret obj -> csvContext (attachJson f st) = None.
Proof. unfold attachJson. intros ->. reflexivity. Qed.

(** The [catch] block sets the JSON chip and leaves the CSV context as it
    was. *)
Lemma attachJson_invalid_keeps_csv (f : File) (st : state) (message : string) :
  JSON_parse host (file_text f) = Throw message ->
  csvContext (attachJson f st) = csvContext st /\
  jsonContext (attachJson f st)
  = Some (mkJsonContext (file_name f) (String.length (file_text f))).
Proof. unfold attachJson. intros ->. split; reflexivity. Qed.

(** *** Facts: where "average likes" is routed *)

Lemma average_likes_keywords :
  wantsGenerateImage "average likes" = false /\
  wantsStatsJson "average likes" = true /\
  wantPythonOnly "average likes" = false /\
  test true Gemini.CODE_KEYWORDS "average likes" = false.
Proof. repeat split; vm_compute; reflexivity. Qed.

(** C1 (as amended).  With no CSV rows and no channel JSON loaded, the
    text "average likes" does not reach the stats tool, is not given to the
    client tools, and is not marked for code execution: it is sent on the
    plain chat stream with the code-execution flag off. *)
Theorem average_likes_plain_chat (env : Env) (st : state) :
  trim (input st) = "average likes" ->
  sessionCsvRows st = None ->
  truthy (channelJson st) = false ->
  ignored st = false ->
  useCodeExecution st "average likes" = false /\
  useTools st "average likes" = false /\
  exists sessionId st2 before_reply,
    handleSend env st
    = (fst (chat_path env st st2 sessionId "average likes"),
       (before_reply ++ snd (chat_path env st st2 sessionId "average likes"))%list)
    /\ exists history prompt imageParts after,
         snd (chat_path env st st2 sessionId "average likes")
         = CallStreamChat history prompt imageParts false :: after.
Proof.
  intros Htext Hrows Hjson Hgo.
  destruct average_likes_keywords as (Himg & _ & Hpy & Hcode).
  assert (Hexec : useCodeExecution st "average likes" = false).
  { unfold useCodeExecution, wantCode. rewrite Hpy, Hcode. reflexivity. }
  assert (Htools : useTools st "average likes" = false).
  { unfold useTools. rewrite Hrows. reflexivity. }
  split; [exact Hexec|]. split; [exact Htools|].
  unfold handleSend. rewrite Hgo, Htext, Himg, Hjson. cbn [andb].
  destruct (open_session env st) as [[sessionId st1] created].
  destruct (begin_send env st st1 sessionId "average likes") as [st2 saved] eqn:Eb.
  exists sessionId, st2, (created ++ saved)%list.
  destruct (chat_path env st st2 sessionId "average likes") as [st3 replied] eqn:Ec.
  cbn [fst snd]. split; [rewrite app_assoc; reflexivity|].
  unfold chat_path in Ec. rewrite Htools, Hexec in Ec.
  destruct (streamChat env _ _ _ false) as [chunks failure].
  destruct (stream_reply _ _ _ _) as [g abort].
  destruct (finish_chat _ _ _ _ _ _) as [st' saved'].
  injection Ec as _ <-. eauto.
Qed.

(** *** Facts: the base64 dataset and what is persisted *)


(** The texts of the [saveMessage] calls made for a role. *)
Definition saved_texts (r : string) (calls : list call) : list string :=
  flat_map (fun c =>
              match c with
              | SaveMessage _ r' t _ _ _ => if String.eqb r' r then [t] else []
              | _ => []
              end)
           calls.


















(** *** Facts: cancelling a stream *)

(** The chunks of a stream taken in one after the other. *)
Definition consume (id : string) (chunks : list Gemini.chunk) (g : gathered)
  : gathered :=
  fold_left (fun g c => on_chunk id c g) chunks g.

Lemma stream_loop_arrivals (id : string) (chunks : list Gemini.chunk)
  (rest : list event) (g : gathered) :
  stream_loop id (map Arrives chunks ++ rest) false g
  = stream_loop id rest false (consume id chunks g).
Proof.
  revert g. induction chunks as [|c chunks IH]; intros g; [reflexivity|].
  cbn [map app stream_loop consume fold_left]. apply IH.
Qed.

(** A stream that runs to its end without failing. *)
Lemma stream_reply_complete (id : string) (chunks : list Gemini.chunk)
  (g : gathered) :
  stream_reply id (map Arrives chunks) None g = (consume id chunks g, false).
Proof.
  unfold stream_reply. rewrite <- (app_nil_r (map Arrives chunks)).
  rewrite stream_loop_arrivals. reflexivity.
Qed.

(** A chunk that arrives after Stop ends the loop: it and everything
    after it, a failure of the stream included, changes nothing. *)
Lemma stream_reply_stopped (id : string) (before_stop : list Gemini.chunk)
  (c : Gemini.chunk) (rest : list event) (failure : option string)
  (g : gathered) :
  stream_reply id (map Arrives before_stop ++ Stop :: Arrives c :: rest) failure g
  = (consume id before_stop g, true).
Proof.
  unfold stream_reply. rewrite stream_loop_arrivals. cbn [stream_loop].
  destruct failure; reflexivity.
Qed.

(** Stop pressed and no chunk after it: the stream runs to its end. *)
Lemma stream_reply_stopped_late (id : string) (chunks : list Gemini.chunk)
  (g : gathered) :
  stream_reply id (map Arrives chunks ++ [Stop]) None g = (consume id chunks g, true).
Proof. unfold stream_reply. rewrite stream_loop_arrivals. reflexivity. Qed.

(** Stop pressed after [n] chunks: unless the stream then fails before
    another chunk arrives, the reply is what the first [n] chunks gathered. *)
Lemma stream_reply_schedule (id : string) (chunks : list Gemini.chunk)
  (failure : option string) (n : nat) (g : gathered) :
  (n < List.length chunks)%nat \/ failure = None ->
  stream_reply id (schedule chunks (Some n)) failure g
  = (consume id (firstn n chunks) g, true).
Proof.
  intros Hn. unfold schedule.
  destruct (skipn n chunks) as [|c rest] eqn:Es.
  - destruct Hn as [Hn | ->].
    + apply (f_equal (@List.length _)) in Es. rewrite length_skipn in Es.
      simpl in Es. lia.
    + apply stream_reply_stopped_late.
  - apply stream_reply_stopped.
Qed.

(** With the stream of gemini.js nothing is left out of the statement
    above: that stream fails only before its first chunk, so a failure
    replaces no content that had arrived. *)
Lemma stop_with_gemini_stream (systemInstruction : string)
  (generateContent : list Gemini.content -> result (option string))
  (history : list Gemini.turn) (prompt : string)
  (imageParts : list Gemini.image_part) (code : bool) (id : string)
  (n : nat) (g : gathered) :
  let '(chunks, failure) :=
    Gemini.streamChat systemInstruction generateContent history prompt
      imageParts code in
  stream_reply id (schedule chunks (Some n)) failure g
  = match failure with
    | Some message => (on_error id message g, true)
    | None => (consume id (firstn n chunks) g, true)
    end.
Proof.
  unfold Gemini.streamChat. destruct (generateContent _) as [[t|]|m].
  - destruct (is_empty t); apply stream_reply_schedule; right; reflexivity.
  - apply stream_reply_schedule. right. reflexivity.
  - destruct n; reflexivity.
Qed.










End Component.

End Chat.

(** ** The component run on examples *)

Module ChatRuns.

Import Chat.

(** The CSV helpers are not among the sources; the examples run with
    helpers that keep the text's lines as rows and summarise nothing. *)
Definition Rows : Type := list string.
Definition parseCsvToRows (text : string) : Rows * list string :=
  (split "010"%char text, []).
Definition enrichWithEngagement (rows : Rows) (hs : list string)
  : Rows * list string := (rows, hs).
Definition computeDatasetSummary (rows : Rows) (hs : list string) : string :=
  EmptyString.
Definition buildSlimCsv (rows : Rows) (hs : list string) : string :=
  EmptyString.
Definition summarizeChannelJson (obj : json float) : string :=
  "**YouTube channel JSON loaded**".

Definition host : Host float := ExampleHost.host.

Definition State : Type := state (num := float) Rows.

Definition drop (st : State) (files : list File) : State :=
  handleDrop host parseCsvToRows enrichWithEngagement computeDatasetSummary
             buildSlimCsv summarizeChannelJson st files.

Definition select (st : State) (files : list File) : State :=
  handleFileSelect host parseCsvToRows enrichWithEngagement
                   computeDatasetSummary buildSlimCsv summarizeChannelJson
                   st files.

(** A model that answers every request with one sentence. *)
Definition answers (text : string) (contents : list Gemini.content)
  : result (option string) := Ret (Some text).

Definition env (stop : option nat) : Env (num := float) :=
  mkEnv "ada" "Ada" "Lovelace" "Chat" "2026-01-01T00:00:00.000Z"
        "1" "2026-01-01T00:00:01.000Z" "2" "2026-01-01T00:00:02.000Z"
        (fun _ _ _ => "s1")
        (Gemini.generateImageTool
           (fun _ _ => Ret [Gemini.mkOutput "image" "AAAA" EmptyString]))
        (fun history prompt hs =>
           t <- Gemini.chatWithCsvTools EmptyString (answers "It is 4.")
                  history prompt hs ;;
           Ret (t, [], []))
        (Gemini.streamChat EmptyString (answers "Hello."))
        stop.

(** A service that streams its reply in three chunks. *)
Definition three_chunks : list Gemini.chunk :=
  [Gemini.TextChunk "Hel"; Gemini.TextChunk "lo, "; Gemini.TextChunk "Ada."].

Definition streaming_env (stop : option nat) : Env (num := float) :=
  mkEnv "ada" "Ada" "Lovelace" "Chat" "2026-01-01T00:00:00.000Z"
        "1" "2026-01-01T00:00:01.000Z" "2" "2026-01-01T00:00:02.000Z"
        (fun _ _ _ => "s1")
        (fun _ _ => Throw "unused")
        (fun _ _ _ => Throw "unused")
        (fun _ _ _ _ => (three_chunks, None))
        stop.

(** A fresh chat with a typed message. *)
Definition typed (text : string) : State :=
  set_input text (set_activeSessionId (Some "new") (initial_state (num := float) Rows)).

Definition csv_file : File :=
  mkFile "likes.csv" "text/csv" ("a,b" ++ nl ++ "1,2") EmptyString.

Definition broken_json_file : File :=
  mkFile "channel.json" "application/json" "{" EmptyString.

End ChatRuns.

(** C1, counterexample.  In a fresh chat, "average likes" is streamed with
    the code-execution flag off. *)
Lemma average_likes_not_code_execution :
  Chat.useCodeExecution (ChatRuns.typed "average likes") "average likes" = false
  /\ snd (Chat.handleSend ChatRuns.host (ChatRuns.env None)
            (ChatRuns.typed "average likes"))
     = [Chat.CreateSession "ada" "lisa" "Chat";
        Chat.SaveMessage "s1" "user" "average likes" None None None;
        Chat.CallStreamChat
          [Gemini.mkTurn "user" "User: Ada Lovelace (@ada)"]
          "average likes" [] false;
        Chat.SaveMessage "s1" "model" "Hello." None None None].
Proof. split; vm_compute; reflexivity. Qed.

Lemma average_likes_plain_chat_witness :
  Chat.useCodeExecution (ChatRuns.typed "average likes") "average likes" = false /\
  Chat.useTools (ChatRuns.typed "average likes") "average likes" = false /\
  exists sessionId st2 before_reply,
    Chat.handleSend ChatRuns.host (ChatRuns.env None)
      (ChatRuns.typed "average likes")
    = (fst (Chat.chat_path (ChatRuns.env None) (ChatRuns.typed "average likes")
              st2 sessionId "average likes"),
       (before_reply
        ++ snd (Chat.chat_path (ChatRuns.env None)
                  (ChatRuns.typed "average likes") st2 sessionId
                  "average likes"))%list)
    /\ exists history prompt imageParts after,
         snd (Chat.chat_path (ChatRuns.env None)
                (ChatRuns.typed "average likes") st2 sessionId "average likes")
         = Chat.CallStreamChat history prompt imageParts false :: after.
Proof.
  apply (Chat.average_likes_plain_chat ChatRuns.host (ChatRuns.env None)
           (ChatRuns.typed "average likes"));
    vm_compute; reflexivity.
Defined.

(** C2, the failing run.  With a CSV attached, a JSON file that does not
    parse sets the JSON chip and keeps the CSV context: both are non-null
    afterwards, through the drop handler and through the file picker, and
    also when the two files are dropped together. *)
Theorem invalid_json_keeps_csv_context :
  let loaded := ChatRuns.drop (Chat.initial_state ChatRuns.Rows) [ChatRuns.csv_file] in
  let both (st : ChatRuns.State) :=
    (Chat.is_some (Chat.csvContext st), Chat.is_some (Chat.jsonContext st)) in
  both loaded = (true, false)
  /\ both (ChatRuns.drop loaded [ChatRuns.broken_json_file]) = (true, true)
  /\ both (ChatRuns.select loaded [ChatRuns.broken_json_file]) = (true, true)
  /\ both (ChatRuns.drop (Chat.initial_state ChatRuns.Rows)
             [ChatRuns.csv_file; ChatRuns.broken_json_file]) = (true, true).
Proof. repeat split; vm_compute; reflexivity. Qed.


Lemma handleSend_ignored_witness :
  (Chat.streaming (Chat.set_streaming true (ChatRuns.typed "hi")) = true
   \/ Chat.nothing_to_send (Chat.set_streaming true (ChatRuns.typed "hi")) = true)
  /\ Chat.handleSend ChatRuns.host (ChatRuns.env None)
       (Chat.set_streaming true (ChatRuns.typed "hi"))
     = (Chat.set_streaming true (ChatRuns.typed "hi"), [])
  /\ List.length
       (Chat.messages
          (fst (Chat.handleSend ChatRuns.host (ChatRuns.env None)
                  (Chat.set_streaming true (ChatRuns.typed "hi")))))
     = List.length (Chat.messages (Chat.set_streaming true (ChatRuns.typed "hi")))
  /\ snd (Chat.handleSend ChatRuns.host (ChatRuns.env None)
            (Chat.set_streaming true (ChatRuns.typed "hi"))) = [].
Proof.
  split; [left; reflexivity|].
  apply (Chat.handleSend_ignored_while_streaming_or_empty ChatRuns.host
           (ChatRuns.env None) (Chat.set_streaming true (ChatRuns.typed "hi"))).
  left. reflexivity.
Defined.

Example handleSend_ignores_empty_message :
  Chat.handleSend ChatRuns.host (ChatRuns.env None) (ChatRuns.typed "   ")
  = (ChatRuns.typed "   ", []).
Proof. reflexivity. Qed.

Example handleSend_sends_when_idle :
  List.length
    (Chat.messages
       (fst (Chat.handleSend ChatRuns.host (ChatRuns.env None) (ChatRuns.typed "hi"))))
  = 2%nat.
Proof. vm_compute. reflexivity. Qed.

(** A stream of three chunks stopped after the second one. *)
Example handleSend_stopped_after_two_chunks :
  let result :=
    Chat.handleSend ChatRuns.host (ChatRuns.streaming_env (Some 2%nat))
      (ChatRuns.typed "hi") in
  map (fun m => Chat.content m) (Chat.messages (fst result)) = ["hi"; "Hello, "]
  /\ Chat.saved_texts "model" (snd result) = ["Hello, "]
  /\ Chat.abortRef (fst result) = true.
Proof. repeat split; vm_compute; reflexivity. Qed.


(** ** The engagement ratio of services/csvTools.js *)

Module CsvTools.

Section Engagement.

Context {num : Type} `{JSNum num}.

(** A cell: a string or a number. *)
Inductive scalar : Type :=
| SText (s : string)
| SNumber (x : num).

(** A row maps column names to cells. *)
Definition row : Type := list (string * scalar).

Fixpoint cell (name : string) (r : row) : option scalar :=
  match r with
  | [] => None
  | (k, v) :: r' => if String.eqb k name then Some v else cell name r'
  end.

(** The names of the two source columns. *)
Variable favoriteCount viewCount : string.

(** A source column is present when the row holds a number for it. *)
Definition present (name : string) (r : row) : option num :=
  match cell name r with
  | Some (SNumber x) => if isNaN x then None else Some x
  | _ => None
  end.

(** Modelled from the spec: services/csvTools.js, where the ratio is
    computed, is not among the sources.  The spec's words:
    engagementRatio(row) = favoriteCount / viewCount when both are present
    and viewCount > 0; otherwise undefined. *)
Definition engagementRatio (r : row) : option num :=
  match present favoriteCount r, present viewCount r with
  | Some f, Some v => if lt zero v then Some (div f v) else None
  | _, _ => None
  end.

(** Modelled from the spec: csvTools.js is not among the sources.  The
    spec's words: rows without the inputs are left unmodified, not
    dropped; the others gain the derived column. *)
Definition enrich_row (r : row) : row :=
  match engagementRatio r with
  | Some ratio => (r ++ [("engagement", SNumber ratio)])%list
  | None => r
  end.

Definition enrich_rows (rows : list row) : list row := map enrich_row rows.

(** C8.  The ratio of a row is favoriteCount / viewCount exactly when both
    columns are present and viewCount > 0, and undefined otherwise; the
    enriched dataset has a row for every row, and a row whose ratio is
    undefined is the row itself. *)
Theorem engagementRatio_defined_exactly (rows : list row) :
  (forall r,
     match engagementRatio r with
     | Some ratio =>
         exists f v, present favoriteCount r = Some f /\
                     present viewCount r = Some v /\
                     lt zero v = true /\ ratio = div f v
     | None =>
         present favoriteCount r = None \/ present viewCount r = None \/
         exists v, present viewCount r = Some v /\ lt zero v = false
     end)
  /\ List.length (enrich_rows rows) = List.length rows
  /\ forall i r,
       nth_error rows i = Some r ->
       nth_error (enrich_rows rows) i = Some (enrich_row r)
       /\ (engagementRatio r = None -> enrich_row r = r).
Proof.
  split; [|split].
  - intros r. unfold engagementRatio.
    destruct (present favoriteCount r) as [f|]; [|left; reflexivity].
    destruct (present viewCount r) as [v|]; [|right; left; reflexivity].
    destruct (lt zero v) eqn:Hv.
    + exists f, v. repeat split; assumption.
    + right. right. exists v. split; [reflexivity|exact Hv].
  - apply length_map.
  - intros i r Hi. split.
    + unfold enrich_rows. rewrite nth_error_map, Hi. reflexivity.
    + unfold enrich_row. intros ->. reflexivity.
Qed.

End Engagement.

End CsvTools.

(** The two sample rows of the specification, on binary64 numbers. *)
Example engagementRatio_samples :
  let ratio := CsvTools.engagementRatio (num := float) "favorite" "view" in
  option_map (fun x => PrimFloat.eqb x 0.1%float)
    (ratio [("favorite", CsvTools.SNumber 10%float);
            ("view", CsvTools.SNumber 100%float)]) = Some true
  /\ ratio [("view", CsvTools.SNumber 0%float)] = None
  /\ ratio [("favorite", CsvTools.SNumber 10%float);
            ("view", CsvTools.SNumber 0%float)] = None
  /\ CsvTools.enrich_rows "favorite" "view"
       [[("view", CsvTools.SNumber 0%float)]]
     = [[("view", CsvTools.SNumber 0%float)]].
Proof. repeat split; vm_compute; reflexivity. Qed.

(** ** More runs of the send handler *)

Example routing_samples :
  Chat.wantsGenerateImage "generate an image of a cat" = true
  /\ Chat.wantsMetricPlot "plot views vs time" = true
  /\ Chat.wantsStatsJson "average likes" = true
  /\ Chat.wantPythonOnly "a histogram of likes" = true
  /\ test true Gemini.CODE_KEYWORDS "compute the average" = true
  /\ test true Gemini.CODE_KEYWORDS "database" = false
  /\ Chat.metricKey "plot likes over time" = "like_count"
  /\ Chat.fieldKey "compute_stats_json: duration" = "duration"
  /\ Chat.which_video "play_video:  first one " = "first one".
Proof. repeat split; vm_compute; reflexivity. Qed.

(** With a channel file loaded, "average views" is answered by the stats
    tool and the reply is saved with the record of the tool call. *)
Example handleSend_stats_tool :
  let loaded :=
    Chat.set_channelJson FloatRuns.two_views (ChatRuns.typed "average views") in
  match snd (Chat.handleSend ChatRuns.host (ChatRuns.env None) loaded) with
  | [Chat.CreateSession _ _ _; Chat.SaveMessage _ "user" "average views" _ _ _;
     Chat.SaveMessage _ "model" text None None (Some [call])] =>
      text = "Stats for view_count (n=2): mean=#, median=#, std=#, min=#, max=#."
      /\ Chat.tool_name call = "compute_stats_json"
  | _ => False
  end.
Proof. vm_compute. split; reflexivity. Qed.

(** "generate an image of a cat" goes to the image tool. *)
Example handleSend_image_tool :
  Chat.saved_texts "model"
    (snd (Chat.handleSend ChatRuns.host (ChatRuns.env None)
            (ChatRuns.typed "generate an image of a cat")))
  = ["Generated image for: " ++ quoted "generate an image of a cat"].
Proof. vm_compute. reflexivity. Qed.
